(** * zplconvert: label extraction and ZPL raster encoding

    A shallow embedding of [zplconvert.py]: the label-recovery function
    [extract_label_from_pdf] and the encoder inside
    [ZPLPrinterApp.print_image], together with the parts of Python and of
    Pillow that they call.

    Python [int] is [Z]; Python [float] is the kernel's binary64 [float];
    a raised exception is the [Raise] case of [result]. *)

From Stdlib Require Import ZArith List String Ascii Bool Lia Sorted.
From Stdlib Require Import Floats.
From Stdlib Require Import DecimalString DecimalZ DecimalFacts DecimalPos.
Import ListNotations.

Set Warnings "-inexact-float".

Open Scope Z_scope.

(** ** Exceptions *)

Inductive exn : Type :=
| ZeroDivisionError
| OverflowError
| ValueError (msg : string).

Inductive result (A : Type) : Type :=
| Ok (a : A)
| Raise (e : exn).

Arguments Ok {A} a.
Arguments Raise {A} e.

Definition bind {A B : Type} (r : result A) (k : A -> result B) : result B :=
  match r with
  | Ok a => k a
  | Raise e => Raise e
  end.

Notation "x <- r ;; k" := (bind r (fun x => k))
  (at level 61, r at next level, right associativity).

Fixpoint mapM {A B : Type} (f : A -> result B) (l : list A) : result (list B) :=
  match l with
  | [] => Ok []
  | a :: l' => b <- f a ;; bs <- mapM f l' ;; Ok (b :: bs)
  end.

(** ** The Python builtins the program uses *)

Module Py.

(** [range(n)]. *)
Definition range (n : Z) : list Z := map Z.of_nat (seq 0 (Z.to_nat n)).

(** [range(start, stop, step)]: a zero step raises [ValueError]. *)
Definition range3 (start stop step : Z) : result (list Z) :=
  if step =? 0 then Raise (ValueError "range() arg 3 must not be zero")
  else
    let n := if 0 <? step
             then (if start <? stop then (stop - start - 1) / step + 1 else 0)
             else (if stop <? start then (start - stop - 1) / (- step) + 1 else 0) in
    Ok (map (fun k => start + k * step) (range n)).

(** [len(s)]. *)
Definition len {A : Type} (l : list A) : Z := Z.of_nat (List.length l).

(** [s[i:j]] for [0 <= i <= j]. *)
Definition slice {A : Type} (l : list A) (i j : Z) : list A :=
  firstn (Z.to_nat (j - i)) (skipn (Z.to_nat i) l).

(** [str(n)], which is also how an f-string renders an [int]. *)
Definition str (n : Z) : string := NilZero.string_of_int (Z.to_int n).

(** The newline character. *)
Definition NL : string := String "010"%char EmptyString.

(** [sep.join(parts)]. *)
Definition join (sep : string) (parts : list string) : string :=
  String.concat sep parts.

(** The digits of the [X] format, in order of value. *)
Definition hex_alphabet : list ascii :=
  list_ascii_of_string "0123456789ABCDEF".

Definition hex_digit (d : Z) : ascii :=
  nth (Z.to_nat d) hex_alphabet "F"%char.

(** [f'{byte:02X}'] for an element of a [bytes] object ([0 <= byte < 256]). *)
Definition format_02X (byte : Z) : string :=
  String (hex_digit (byte / 16)) (String (hex_digit (byte mod 16)) EmptyString).

(** [''.join(f'{byte:02X}' for byte in row)]. *)
Definition hex_of_bytes (row : list Z) : string :=
  String.concat EmptyString (map format_02X row).

(** [float(n)]: the integer rounded to the nearest binary64 value.  Where
    the program mixes an [int] with a [float] (in a product or in a
    comparison) the [int] is converted first; the [int]s of the program
    are pixel coordinates and counts, for which the conversion is exact. *)
Definition float_of_int (n : Z) : float :=
  SF2Prim (binary_normalize prec emax n 0 false).

(** [a / b] on two [int]s (true division).  Both are converted to binary64
    first, which is what Python computes as long as they are below [2^53]
    in absolute value. *)
Definition truediv (a b : Z) : result float :=
  if b =? 0 then Raise ZeroDivisionError
  else Ok (float_of_int a / float_of_int b)%float.

(** [int(x)] on a [float]: truncation towards zero. *)
Definition int_of_float (x : float) : result Z :=
  match Prim2SF x with
  | S754_zero _ => Ok 0
  | S754_finite s m e =>
      let a := Z.shiftl (Z.pos m) e in Ok (if s then - a else a)
  | S754_infinity _ => Raise OverflowError
  | S754_nan => Raise (ValueError "cannot convert float NaN to integer")
  end.

(** [min(xs)] and [max(xs)] of a list of [int]s; an empty list raises. *)
Definition min_list (xs : list Z) : result Z :=
  match xs with
  | [] => Raise (ValueError "min() arg is an empty sequence")
  | x :: xs' => Ok (fold_left Z.min xs' x)
  end.

Definition max_list (xs : list Z) : result Z :=
  match xs with
  | [] => Raise (ValueError "max() arg is an empty sequence")
  | x :: xs' => Ok (fold_left Z.max xs' x)
  end.

(** [max(a, b)] and [min(a, b)] on floats: the first argument is kept
    unless the second one is strictly better. *)
Definition fmax (a b : float) : float := if (a <? b)%float then b else a.
Definition fmin (a b : float) : float := if (b <? a)%float then b else a.

End Py.

(** ** The Pillow operations the program uses *)

Module PIL.

(** An image: its size and the sample at each pixel.  Only the samples at
    [0 <= x < width], [0 <= y < height] belong to the image. *)
Record Image (A : Type) : Type := mkImage {
  width : Z;
  height : Z;
  getpixel : Z -> Z -> A
}.

Arguments mkImage {A} width height getpixel.
Arguments width {A} i.
Arguments height {A} i.
Arguments getpixel {A} i x y.

Definition rgb : Type := (Z * Z * Z)%type.

(** An image with its mode: ['1'] (one bit per pixel, stored as a sample
    0 or 255), ['L'] (8-bit grey), or a colour mode. *)
Inductive PILImage : Type :=
| Mode1 (i : Image Z)
| ModeL (i : Image Z)
| ModeRGB (i : Image rgb).

(** [img.point(f)]: every sample mapped through [f]. *)
Definition point {A B : Type} (f : A -> B) (i : Image A) : Image B :=
  mkImage (width i) (height i) (fun x y => f (getpixel i x y)).

(** [ImageOps.invert] on an 8-bit image. *)
Definition invert (i : Image Z) : Image Z := point (fun v => 255 - v) i.

(** The pixels of row [y], left to right. *)
Definition row {A : Type} (i : Image A) (y : Z) : list A :=
  map (fun x => getpixel i x y) (Py.range (width i)).

(** [img.getdata()]: all samples, row by row. *)
Definition getdata {A : Type} (i : Image A) : list A :=
  flat_map (row i) (Py.range (height i)).

(** [img.crop((left, upper, right, lower))].  Pixels of the box that lie
    outside the image are filled with [fill]; a box whose right edge is
    left of its left edge (or lower above upper) raises. *)
Definition crop {A : Type} (fill : A) (i : Image A) (box : Z * Z * Z * Z)
  : result (Image A) :=
  let '(x0, y0, x1, y1) := box in
  if x1 <? x0 then Raise (ValueError "Coordinate 'right' is less than 'left'")
  else if y1 <? y0 then Raise (ValueError "Coordinate 'lower' is less than 'upper'")
  else Ok (mkImage (x1 - x0) (y1 - y0)
             (fun x y =>
                let sx := x + x0 in
                let sy := y + y0 in
                if (0 <=? sx) && (sx <? width i) && (0 <=? sy) && (sy <? height i)
                then getpixel i sx sy else fill)).

(** [img.rotate(90, expand=True)]: a quarter turn counter-clockwise; the
    right column of the input becomes the top row of the output. *)
Definition rotate90 {A : Type} (i : Image A) : Image A :=
  mkImage (height i) (width i) (fun x y => getpixel i (width i - 1 - y) x).

(** [img.getbbox()]: the bounding box of the non-zero samples, right and
    lower edges exclusive, or [None] when every sample is zero. *)
Definition getbbox (i : Image Z) : option (Z * Z * Z * Z) :=
  let ink x y := negb (getpixel i x y =? 0) in
  let cols := filter (fun x => existsb (fun y => ink x y) (Py.range (height i)))
                     (Py.range (width i)) in
  let rows := filter (fun y => existsb (fun x => ink x y) (Py.range (width i)))
                     (Py.range (height i)) in
  match cols, rows with
  | x0 :: cols', y0 :: rows' =>
      Some (x0, y0, last cols' x0 + 1, last rows' y0 + 1)
  | _, _ => None
  end.

(** The bit that [tobytes] writes for column [x] of row [y] of a mode ['1']
    image: set when the sample is non-zero, clear in the padding. *)
Definition bit (i : Image Z) (x y : Z) : bool :=
  (x <? width i) && negb (getpixel i x y =? 0).

(** Eight bits, most significant first, as a byte. *)
Definition byte_of_bits (bs : list bool) : Z :=
  fold_left (fun acc (b : bool) => 2 * acc + (if b then 1 else 0)) bs 0.

(** The packed bytes of row [y] of a mode ['1'] image. *)
Definition row_bytes (i : Image Z) (y : Z) : list Z :=
  map (fun j => byte_of_bits (map (fun k => bit i (8 * j + k) y) (Py.range 8)))
      (Py.range ((width i + 7) / 8)).

(** [img.tobytes()] of a mode ['1'] image: each row packed into whole
    bytes, leftmost pixel in the most significant bit. *)
Definition tobytes (i : Image Z) : list Z :=
  flat_map (row_bytes i) (Py.range (height i)).

End PIL.

Import PIL.

(** ** The program *)

Section Program.

(** The luma transform that [img.convert('L')] applies to each pixel of a
    colour image.  The program never looks inside it. *)
Variable luma : rgb -> Z.

Definition convert_L (i : Image rgb) : Image Z := point luma i.

(** *** [ZPLPrinterApp.print_image]: the raster encoder *)

(** The conversion to black and white at the head of [print_image]: an
    image that is already in mode ['1'] is taken as it is; any other one
    is turned to grey if it is not, then thresholded ("inverted for ZPL":
    a sample below the threshold becomes 255). *)
Definition to_black_and_white (threshold : Z) (img : PILImage) : Image Z :=
  match img with
  | Mode1 i => i
  | ModeL i => point (fun x => if x >=? threshold then 0 else 255) i
  | ModeRGB i => point (fun x => if x >=? threshold then 0 else 255) (convert_L i)
  end.

Definition bytes_per_row_of (width : Z) : Z := (width + 7) / 8.

(** The settings read from the UI, all already [int]s. *)
Record Settings : Type := mkSettings {
  threshold : Z;
  position_x : Z;
  position_y : Z;
  print_speed : Z;
  darkness : Z;
  quantity : Z;
  pw : Z;
  ll : Z
}.

(** The ZPL text assembled at the end of [print_image]. *)
Definition zpl_text (s : Settings) (total_bytes bytes_per_row : Z)
  (hex_data : string) : string :=
  ("^XA" ++ Py.NL
   ++ "^PW" ++ Py.str (pw s) ++ Py.NL ++ "^LL" ++ Py.str (ll s) ++ Py.NL
   ++ "^PR" ++ Py.str (print_speed s) ++ ",0,0" ++ Py.NL
   ++ "^MD" ++ Py.str (darkness s) ++ Py.NL
   ++ "^PQ" ++ Py.str (quantity s) ++ Py.NL
   ++ "^FO" ++ Py.str (position_x s) ++ "," ++ Py.str (position_y s) ++ Py.NL
   ++ "^GFA," ++ Py.str total_bytes ++ "," ++ Py.str total_bytes ++ ","
   ++ Py.str bytes_per_row ++ "," ++ Py.NL ++ hex_data ++ Py.NL
   ++ "^FS" ++ Py.NL ++ "^XZ")%string.

(** [print_image], from the settings and the loaded image to the text that
    is written to the spool file.  [Raise] is the [except Exception]
    branch: an error box is shown and nothing is written. *)
Definition print_image (s : Settings) (pil_image : PILImage) : result string :=
  let img := to_black_and_white (threshold s) pil_image in
  let width := PIL.width img in
  let height := PIL.height img in
  let bytes_per_row := bytes_per_row_of width in
  let binary_data := tobytes img in
  starts <- Py.range3 0 (Py.len binary_data) bytes_per_row ;;
  let hex_rows :=
    map (fun i => Py.hex_of_bytes (Py.slice binary_data i (i + bytes_per_row)))
        starts in
  let hex_data := Py.join Py.NL hex_rows in
  let total_bytes := bytes_per_row * height in
  Ok (zpl_text s total_bytes bytes_per_row hex_data).

(** *** [extract_label_from_pdf]: label region recovery *)

(** A bounding box [(left, upper, right, lower)]. *)
Definition BBox : Type := (Z * Z * Z * Z)%type.

(** "Check if this is approximately letter size (8.5 x 11)". *)
Definition is_letter_size (page_width_in page_height_in : float) : bool :=
  ((7.5 <? page_width_in) && (page_width_in <? 9.5)
   && (10 <? page_height_in) && (page_height_in <? 12)
   || (10 <? page_width_in) && (page_width_in <? 12)
      && (7.5 <? page_height_in) && (page_height_in <? 9.5))%float.

Definition threshold_fn (x : Z) : Z := if x <? 240 then 0 else 255.

(** [binary]: the page in grey, then 0 where the sample is below 240 and
    255 elsewhere. *)
Definition binary_of (img : Image rgb) : Image Z :=
  let gray := convert_L img in
  point threshold_fn gray.

(** "Check if bbox covers the whole page". *)
Definition bbox_covers_page (img : Image rgb) (bbox : BBox) : bool :=
  let '(b0, b1, b2, b3) := bbox in
  ((Py.float_of_int b0 <? Py.float_of_int (width img) * 0.05)
   && (Py.float_of_int b1 <? Py.float_of_int (height img) * 0.05)
   && (Py.float_of_int (width img) * 0.95 <? Py.float_of_int b2)
   && (Py.float_of_int (height img) * 0.95 <? Py.float_of_int b3))%float.

(** [(strip_left, strip_right)] of strip [i]. *)
Definition strip_bounds (strip_width i : Z) : Z * Z :=
  (i * strip_width, (i + 1) * strip_width).

(** One turn of the loop over the strips: the density of strip [i]. *)
Definition strip_density (img : Image rgb) (binary : Image Z)
  (strip_width i : Z) : result float :=
  let '(strip_left, strip_right) := strip_bounds strip_width i in
  strip <- crop 0 binary (strip_left, 0, strip_right, height img) ;;
  let dark_pixels := Py.len (filter (fun p => p =? 0) (getdata strip)) in
  Py.truediv dark_pixels (strip_width * height img).

(** The list [strip_densities] once the loop is over. *)
Definition strip_densities_of (img : Image rgb) (binary : Image Z)
  (strip_width : Z) : result (list (Z * float)) :=
  mapM (fun i => density <- strip_density img binary strip_width i ;;
                 Ok (i, density))
       (Py.range 20).

(** [[i for i, d in strip_densities if d > 0.02]]. *)
Definition label_strips_of (strip_densities : list (Z * float)) : list Z :=
  map fst (filter (fun p => (0.02 <? snd p)%float) strip_densities).

(** The body of [if bbox_covers_page:], as the value of [bbox] after it:
    [Some] of the refined box, or [None] when [bbox] is left as it was. *)
Definition column_density (img : Image rgb) (binary : Image Z)
  : result (option BBox) :=
  let strip_width := width img / 20 in
  strip_densities <- strip_densities_of img binary strip_width ;;
  let label_strips := label_strips_of strip_densities in
  match label_strips with
  | [] => Ok None
  | _ :: _ =>
      left_strip <- Py.min_list label_strips ;;
      right_strip <- Py.max_list label_strips ;;
      let margin := strip_width in
      let left := Z.max 0 (left_strip * strip_width - margin) in
      let right := Z.min (width img) ((right_strip + 1) * strip_width + margin) in
      cropped_region <- crop 0 binary (left, 0, right, height img) ;;
      let inverted_region := invert cropped_region in
      match getbbox inverted_region with
      | Some region_bbox =>
          let '(_, r1, _, r3) := region_bbox in
          let top := Z.max 0 (r1 - margin) in
          let bottom := Z.min (height img) (r3 + margin) in
          Ok (Some (left, top, right, bottom))
      | None => Ok None
      end
  end.

(** The content box the rest of the function works with. *)
Definition final_bbox (img : Image rgb) (binary : Image Z) (bbox : BBox)
  : result BBox :=
  if bbox_covers_page img bbox then
    refined <- column_density img binary ;;
    match refined with
    | Some bbox' => Ok bbox'
    | None => Ok bbox
    end
  else Ok bbox.

(** "Determine likely label size": [(label_long_edge, label_short_edge)]. *)
Definition label_edges (max_content_dim min_content_dim : float)
  : float * float :=
  if (5 <? max_content_dim)%float then (6.0, 4.0)%float
  else if (3 <? max_content_dim)%float then (4.0, 2.0)%float
  else (max_content_dim + 0.2, min_content_dim + 0.2)%float.

Definition label_size (target_dpi : Z) (bbox : BBox) : result (float * float) :=
  let '(b0, b1, b2, b3) := bbox in
  content_width_in <- Py.truediv (b2 - b0) target_dpi ;;
  content_height_in <- Py.truediv (b3 - b1) target_dpi ;;
  let max_content_dim := Py.fmax content_width_in content_height_in in
  let min_content_dim := Py.fmin content_width_in content_height_in in
  Ok (label_edges max_content_dim min_content_dim).

(** [int(max(0, x))] and [int(min(n, x))] for an [int] bound and a
    [float] [x]. *)
Definition int_max0 (x : float) : result Z :=
  if (0 <? x)%float then Py.int_of_float x else Ok 0.

Definition int_min (n : Z) (x : float) : result Z :=
  if (x <? Py.float_of_int n)%float then Py.int_of_float x else Ok n.

(** "Calculate crop region centered on the content bbox but sized for
    full label". *)
Definition crop_box (img : Image rgb) (target_dpi : Z) (bbox : BBox)
  (label_long_edge label_short_edge : float) : result BBox :=
  let '(b0, b1, b2, b3) := bbox in
  content_center_x <- Py.truediv (b0 + b2) 2 ;;
  content_center_y <- Py.truediv (b1 + b3) 2 ;;
  let crop_half_width := (label_long_edge * Py.float_of_int target_dpi / 2)%float in
  let crop_half_height := (label_short_edge * Py.float_of_int target_dpi / 2)%float in
  left <- int_max0 (content_center_x - crop_half_width)%float ;;
  right <- int_min (width img) (content_center_x + crop_half_width)%float ;;
  top <- int_max0 (content_center_y - crop_half_height)%float ;;
  bottom <- int_min (height img) (content_center_y + crop_half_height)%float ;;
  Ok (left, top, right, bottom).

(** "Rotation logic". *)
Definition needs_rotation (aspect_ratio : float) (spans_page_height : bool) : bool :=
  if (1.0 <? aspect_ratio)%float then true
  else if spans_page_height && (0.5 <? aspect_ratio)%float then true
  else false.

Definition spans_page_height_of (img : Image rgb) (bbox : BBox) : bool :=
  let '(_, b1, _, b3) := bbox in
  let content_height := b3 - b1 in
  let page_height := height img in
  (Py.float_of_int page_height * 0.7 <? Py.float_of_int content_height)%float.

(** The end of the function: rotate the crop when the rule says so. *)
Definition orient (img : Image rgb) (bbox : BBox) (cropped : Image rgb)
  : result (Image rgb) :=
  let crop_width := width cropped in
  let crop_height := height cropped in
  aspect_ratio <- Py.truediv crop_width crop_height ;;
  if needs_rotation aspect_ratio (spans_page_height_of img bbox)
  then Ok (rotate90 cropped)
  else Ok cropped.

(** From the content box to the label: size, crop, orientation. *)
Definition crop_label (target_dpi : Z) (img : Image rgb) (bbox : BBox)
  : result (Image rgb) :=
  edges <- label_size target_dpi bbox ;;
  box <- crop_box img target_dpi bbox (fst edges) (snd edges) ;;
  cropped <- crop (0, 0, 0) img box ;;
  orient img bbox cropped.

(** [extract_label_from_pdf].  The page rectangle (in points) and the
    page rendered at [target_dpi] come from the PDF library; the debug
    printing is left out. *)
Definition extract_label_from_pdf (rect_width rect_height : float)
  (target_dpi : Z) (img : Image rgb) : result (Image rgb) :=
  let page_width_in := (rect_width / 72)%float in
  let page_height_in := (rect_height / 72)%float in
  if negb (is_letter_size page_width_in page_height_in) then Ok img
  else
    let binary := binary_of img in
    match getbbox (invert binary) with
    | None => Ok img
    | Some bbox0 =>
        bbox <- final_bbox img binary bbox0 ;;
        crop_label target_dpi img bbox
    end.

End Program.

(** ** Vocabulary of the specification *)

(** Reading the encoder's text back: a hex digit, a row of hex digits as
    bytes, a byte as eight bits (most significant first), and the text as
    one row of bits per line. *)
Fixpoint position (c : ascii) (l : list ascii) (n : Z) : option Z :=
  match l with
  | [] => None
  | a :: l' => if Ascii.eqb c a then Some n else position c l' (n + 1)
  end.

Definition unhex_digit (c : ascii) : option Z :=
  position c Py.hex_alphabet 0.

Fixpoint unhex (s : string) : option (list Z) :=
  match s with
  | EmptyString => Some []
  | String a (String b rest) =>
      match unhex_digit a, unhex_digit b, unhex rest with
      | Some x, Some y, Some l => Some (16 * x + y :: l)
      | _, _, _ => None
      end
  | String _ EmptyString => None
  end.

Definition bits_of_byte (b : Z) : list bool :=
  map (fun k => Z.testbit b (7 - k)) (Py.range 8).

Definition decode_row (s : string) : option (list bool) :=
  option_map (flat_map bits_of_byte) (unhex s).

(** [text.split('\n')]. *)
Fixpoint split_lines (s : string) : list string :=
  match s with
  | EmptyString => [EmptyString]
  | String c rest =>
      if Ascii.eqb c "010" then EmptyString :: split_lines rest
      else match split_lines rest with
           | l :: ls => String c l :: ls
           | [] => [String c EmptyString]
           end
  end.

Fixpoint sequence {A : Type} (l : list (option A)) : option (list A) :=
  match l with
  | [] => Some []
  | Some a :: l' => option_map (cons a) (sequence l')
  | None :: _ => None
  end.

Definition decode_hex (text : string) : option (list (list bool)) :=
  sequence (map decode_row (split_lines text)).

(** A row of the hex body: upper-case hex digits and nothing else. *)
Definition is_upper_hex (c : ascii) : bool :=
  match unhex_digit c with Some _ => true | None => false end.

Definition upper_hex_row (s : string) : bool :=
  forallb is_upper_hex (list_ascii_of_string s).

(** A decimal integer without leading zeros: an optional minus sign, then
    either the single digit 0 or digits that do not start with 0. *)
Definition is_digit (c : ascii) : bool :=
  match unhex_digit c with Some d => d <? 10 | None => false end.

Definition canonical_digits (s : string) : bool :=
  match s with
  | EmptyString => false
  | String c rest =>
      forallb is_digit (c :: list_ascii_of_string rest)
      && (negb (Ascii.eqb c "0") || String.eqb rest EmptyString)
  end.

Definition canonical_decimal (s : string) : bool :=
  match s with
  | String "-" rest => canonical_digits rest && negb (String.eqb rest "0")
  | _ => canonical_digits s
  end.

Definition no_newline (s : string) : bool :=
  forallb (fun c => negb (Ascii.eqb c "010")) (list_ascii_of_string s).

(** The bits a row of a mode ['1'] image stands for, with the padding
    that fills its last byte. *)
Definition padded_row_bits (i : Image Z) (y : Z) : list bool :=
  map (fun x => negb (getpixel i x y =? 0)) (Py.range (width i))
  ++ repeat false (Z.to_nat (8 * bytes_per_row_of (width i) - width i)).

(** The rows of bits that stand for an image when the bit of a pixel is
    [f] of its sample, each row with the padding that fills its last
    byte. *)
Definition sample_rows {A : Type} (f : A -> bool) (i : Image A)
  : list (list bool) :=
  map (fun y =>
         map (fun x => f (getpixel i x y)) (Py.range (width i))
         ++ repeat false (Z.to_nat (8 * bytes_per_row_of (width i) - width i)))
      (Py.range (height i)).

(** The hex body that [print_image] emits for a black-and-white image. *)
Definition hex_body (img : Image Z) : string :=
  Py.join Py.NL
    (map (fun y => Py.hex_of_bytes (row_bytes img y)) (Py.range (height img))).

(** Strict order on floats, as a proposition. *)
Definition flt (a b : float) : Prop := (a <? b)%float = true.

(** The samples of the columns [x0 <= x < x1] of an image, row by row. *)
Definition band_samples {A : Type} (i : Image A) (x0 x1 : Z) : list A :=
  flat_map (fun y => map (fun x => getpixel i x y)
                         (map (fun k => x0 + k) (Py.range (x1 - x0))))
           (Py.range (height i)).

(** The number of ink pixels (grey sample below 240) in those columns. *)
Definition ink_count (luma : rgb -> Z) (img : Image rgb) (x0 x1 : Z) : Z :=
  Py.len (filter (fun p => luma p <? 240) (band_samples img x0 x1)).

(** Whether column [x] lies in strip [i]. *)
Definition in_strip (strip_width i x : Z) : bool :=
  let '(strip_left, strip_right) := strip_bounds strip_width i in
  (strip_left <=? x) && (x <? strip_right).

(** ** Sample inputs *)

Definition luma_601 (p : rgb) : Z :=
  let '(r, g, b) := p in (r * 299 + g * 587 + b * 114) / 1000.

(** An image given by its rows of samples. *)
Definition img_of_rows {A : Type} (d : A) (w : Z) (rows : list (list A)) : Image A :=
  mkImage w (Py.len rows)
    (fun x y => nth (Z.to_nat x) (nth (Z.to_nat y) rows []) d).

Definition demo_settings : Settings := mkSettings 128 0 10 2 25 1 812 1218.

Definition demo_rows : list (list Z) :=
  [[0; 0; 0; 0; 255; 255; 255; 255; 0; 0];
   [255; 0; 255; 0; 255; 0; 255; 0; 255; 0]].

Definition white : rgb := (255, 255, 255).
Definition black : rgb := (0, 0, 0).

(** A letter page at 5 dots per inch: a printed block in columns 10-25,
    rows 5-44, and a stray dark pixel in two opposite corners. *)
Definition demo_page : Image rgb :=
  mkImage 42 55 (fun x y =>
    if (x =? 0) && (y =? 0) || (x =? 41) && (y =? 54)
       || (10 <=? x) && (x <? 26) && (5 <=? y) && (y <? 45)
    then black else white).

(** The same page without the stray pixels. *)
Definition demo_page_plain : Image rgb :=
  mkImage 42 55 (fun x y =>
    if (10 <=? x) && (x <? 26) && (5 <=? y) && (y <? 45)
    then black else white).

(** The plain page with one dark pixel in its bottom-right corner. *)
Definition demo_page_corner : Image rgb :=
  mkImage 42 55 (fun x y =>
    if (x =? 41) && (y =? 54)
       || (10 <=? x) && (x <? 26) && (5 <=? y) && (y <? 45)
    then black else white).

(** A page too small for the strip analysis. *)
Definition tiny_page : Image rgb := mkImage 10 10 (fun _ _ => black).

(** A blank letter page at 203 dots per inch. *)
Definition blank_page : Image rgb := mkImage 1726 2234 (fun _ _ => white).

(** ** Lists, ranges and slices *)

Lemma range_length (n : Z) : List.length (Py.range n) = Z.to_nat n.
Proof. unfold Py.range. now rewrite length_map, length_seq. Qed.

Lemma range_In (n x : Z) : In x (Py.range n) <-> 0 <= x < n.
Proof.
  unfold Py.range. rewrite in_map_iff. split.
  - intros (k & <- & Hk). apply in_seq in Hk. lia.
  - intros H. exists (Z.to_nat x). split; [lia | apply in_seq; lia].
Qed.

Lemma range_of_nat (n : nat) :
  Py.range (Z.of_nat n) = map Z.of_nat (seq 0 n).
Proof. unfold Py.range. now rewrite Nat2Z.id. Qed.

Lemma range_nonpos (n : Z) : n <= 0 -> Py.range n = [].
Proof.
  intros H. unfold Py.range. now replace (Z.to_nat n) with 0%nat by lia.
Qed.

Lemma range_succ (n : Z) : 0 <= n -> Py.range (n + 1) = Py.range n ++ [n].
Proof.
  intros H. unfold Py.range.
  replace (Z.to_nat (n + 1)) with (S (Z.to_nat n)) by lia.
  rewrite seq_S, map_app. simpl. now rewrite Z2Nat.id by lia.
Qed.

Lemma flat_map_length_const {A B : Type} (f : A -> list B) (n : nat) (l : list A) :
  (forall a, In a l -> List.length (f a) = n) ->
  List.length (flat_map f l) = (List.length l * n)%nat.
Proof.
  induction l as [|a l IH]; intros H; simpl; [reflexivity|].
  rewrite length_app, H by (simpl; auto).
  rewrite IH by (intros b Hb; apply H; simpl; auto). reflexivity.
Qed.

(** Cutting a concatenation of equally long pieces at multiples of their
    length gives the pieces back. *)
Lemma chunk_nth {A : Type} (n : nat) (ls : list (list A)) :
  Forall (fun l => List.length l = n) ls ->
  forall k, (k < List.length ls)%nat ->
  firstn n (skipn (k * n) (List.concat ls)) = nth k ls [].
Proof.
  induction 1 as [|l ls Hl _ IH]; intros k Hk; simpl in Hk; [lia|].
  destruct k as [|k]; simpl.
  - rewrite firstn_app, Hl, Nat.sub_diag. simpl.
    rewrite List.app_nil_r. rewrite <- Hl. apply firstn_all.
  - rewrite skipn_app, Hl.
    rewrite (skipn_all2 l) by lia. simpl.
    replace (n + k * n - n)%nat with (k * n)%nat by lia.
    apply IH. lia.
Qed.

Lemma chunks_of_flat_map {A : Type} (f : Z -> list A) (n h : Z) :
  0 < n ->
  (forall y, List.length (f y) = Z.to_nat n) ->
  map (fun i => Py.slice (flat_map f (Py.range h)) i (i + n))
      (map (fun k => 0 + k * n) (Py.range h))
  = map f (Py.range h).
Proof.
  intros Hn Hlen. rewrite map_map. apply map_ext_in.
  intros k Hk. apply range_In in Hk. unfold Py.slice.
  replace (0 + k * n + n - (0 + k * n)) with n by lia.
  replace (Z.to_nat (0 + k * n)) with (Z.to_nat k * Z.to_nat n)%nat by nia.
  rewrite flat_map_concat_map, chunk_nth.
  - rewrite (nth_indep _ [] (f 0)) by (rewrite length_map, range_length; lia).
    rewrite (map_nth f _ 0). f_equal.
    unfold Py.range. rewrite (map_nth Z.of_nat _ 0%nat), seq_nth by lia. lia.
  - apply Forall_forall. intros l Hl. apply in_map_iff in Hl.
    destruct Hl as (y & <- & _). apply Hlen.
  - rewrite length_map, range_length. lia.
Qed.

(** ** The raster encoder *)

Lemma row_bytes_length (i : Image Z) (y : Z) :
  List.length (row_bytes i y) = Z.to_nat (bytes_per_row_of (width i)).
Proof. unfold row_bytes. now rewrite length_map, range_length. Qed.

Lemma tobytes_len (i : Image Z) :
  Py.len (tobytes i)
  = Z.of_nat (Z.to_nat (height i)) * Z.of_nat (Z.to_nat (bytes_per_row_of (width i))).
Proof.
  unfold Py.len, tobytes.
  rewrite (flat_map_length_const _ (Z.to_nat (bytes_per_row_of (width i)))).
  - rewrite range_length. lia.
  - intros y _. apply row_bytes_length.
Qed.

Lemma bytes_per_row_pos (w : Z) : 0 < w -> 0 < bytes_per_row_of w.
Proof. intros H. unfold bytes_per_row_of. apply Z.div_str_pos. lia. Qed.

Lemma range3_chunks (h n : Z) :
  0 < n ->
  Py.range3 0 (Z.of_nat (Z.to_nat h) * n) n
  = Ok (map (fun k => 0 + k * n) (Py.range h)).
Proof.
  intros Hn. unfold Py.range3.
  replace (n =? 0) with false by lia.
  replace (0 <? n) with true by lia.
  f_equal. f_equal.
  destruct (Z.ltb_spec 0 (Z.of_nat (Z.to_nat h) * n)) as [Hpos|Hle].
  - replace (Z.of_nat (Z.to_nat h) * n - 0 - 1)
      with ((Z.of_nat (Z.to_nat h) - 1) * n + (n - 1)) by lia.
    rewrite Z.div_add_l by lia. rewrite Z.div_small by lia.
    unfold Py.range. f_equal. f_equal. lia.
  - assert (Z.of_nat (Z.to_nat h) <= 0).
    { pose proof (Nat2Z.is_nonneg (Z.to_nat h)).
      destruct (Z.eq_dec (Z.of_nat (Z.to_nat h)) 0) as [->|]; [lia | nia]. }
    rewrite (range_nonpos h) by lia. reflexivity.
Qed.

(** The loop over [range(0, len(binary_data), bytes_per_row)] visits the
    rows of the image one by one. *)
Lemma print_image_rows (luma : rgb -> Z) (s : Settings) (pil_image : PILImage) :
  let img := to_black_and_white luma (threshold s) pil_image in
  0 < width img ->
  print_image luma s pil_image
  = Ok (zpl_text s (bytes_per_row_of (width img) * height img)
          (bytes_per_row_of (width img))
          (Py.join Py.NL
             (map (fun y => Py.hex_of_bytes (row_bytes img y))
                  (Py.range (height img))))).
Proof.
  intros img Hw. unfold print_image. fold img.
  pose proof (bytes_per_row_pos _ Hw) as Hb.
  rewrite tobytes_len, (Z2Nat.id (bytes_per_row_of (width img))) by lia.
  rewrite range3_chunks by exact Hb. simpl.
  rewrite <- (map_map (fun i => Py.slice (tobytes img) i (i + bytes_per_row_of (width img)))
                      Py.hex_of_bytes).
  unfold tobytes. rewrite chunks_of_flat_map.
  - now rewrite map_map.
  - exact Hb.
  - intros y. apply row_bytes_length.
Qed.

(** *** Decimal and hexadecimal fields *)

Lemma uint_all_digits (d : Decimal.uint) :
  forallb is_digit (list_ascii_of_string (NilEmpty.string_of_uint d)) = true.
Proof. induction d; simpl; auto. Qed.

Lemma to_uint_normal (p : positive) :
  Decimal.unorm (Pos.to_uint p) = Pos.to_uint p.
Proof.
  rewrite <- (DecimalPos.Unsigned.to_of (Pos.to_uint p)).
  now rewrite DecimalPos.Unsigned.of_to.
Qed.

Lemma normal_uint_canonical (d : Decimal.uint) :
  d <> Decimal.Nil -> Decimal.unorm d = d ->
  canonical_digits (NilEmpty.string_of_uint d) = true.
Proof.
  intros Hnil Hn.
  destruct d; try congruence;
    try (cbn [NilEmpty.string_of_uint canonical_digits];
         cbn [forallb]; rewrite uint_all_digits; reflexivity).
  destruct (Decimal.uint_eq_dec d Decimal.Nil) as [->|Hd]; [reflexivity|].
  exfalso. rewrite DecimalFacts.unorm_D0 in Hn.
  pose proof (DecimalFacts.nb_digits_unorm d Hd) as Hle.
  rewrite Hn in Hle. simpl in Hle. lia.
Qed.

Lemma uint_string_zero (d : Decimal.uint) :
  NilEmpty.string_of_uint d = "0"%string -> d = Decimal.D0 Decimal.Nil.
Proof.
  destruct d; simpl; try discriminate.
  intros H. injection H as H. destruct d; simpl in H; try discriminate.
  reflexivity.
Qed.

(** [str(n)] is a decimal integer without leading zeros. *)
Lemma str_canonical (n : Z) : canonical_decimal (Py.str n) = true.
Proof.
  destruct n as [|p|p]; [reflexivity| |]; unfold Py.str; simpl.
  - pose proof (Unsigned.to_uint_nonnil p) as Hnil.
    pose proof (normal_uint_canonical _ Hnil (to_uint_normal p)) as Hc.
    revert Hnil Hc. destruct (Pos.to_uint p); intros Hnil Hc;
      try congruence; exact Hc.
  - pose proof (Unsigned.to_uint_nonnil p) as Hnil.
    pose proof (normal_uint_canonical _ Hnil (to_uint_normal p)) as Hc.
    pose proof (Unsigned.to_uint_nonzero p) as Hz.
    assert (Hs : NilZero.string_of_uint (Pos.to_uint p)
                 = NilEmpty.string_of_uint (Pos.to_uint p))
      by (revert Hnil; destruct (Pos.to_uint p); intros Hnil;
          [congruence | reflexivity ..]).
    rewrite Hs, Hc. simpl.
    destruct (String.eqb_spec (NilEmpty.string_of_uint (Pos.to_uint p)) "0") as [E|E];
      [|reflexivity].
    apply uint_string_zero in E. congruence.
Qed.

(** [str] can be read back. *)
Lemma str_parse (n : Z) :
  option_map Z.of_int (NilZero.int_of_string (Py.str n)) = Some n.
Proof.
  unfold Py.str. rewrite NilZero.isi.
  - simpl. now rewrite DecimalZ.of_to.
  - destruct n as [|p|p]; simpl; try discriminate;
      intros H; injection H; apply Unsigned.to_uint_nonnil.
  - destruct n as [|p|p]; simpl; try discriminate;
      intros H; injection H; apply Unsigned.to_uint_nonnil.
Qed.

Lemma hex_digit_upper (d : Z) : is_upper_hex (Py.hex_digit d) = true.
Proof.
  unfold Py.hex_digit. generalize (Z.to_nat d). intros n.
  do 16 (destruct n as [|n]; [reflexivity|]). destruct n; reflexivity.
Qed.

Lemma hex_of_bytes_upper (bs : list Z) :
  upper_hex_row (Py.hex_of_bytes bs) = true.
Proof.
  unfold upper_hex_row, Py.hex_of_bytes.
  induction bs as [|b bs IH]; [reflexivity|].
  destruct bs as [|b' bs].
  - simpl. now rewrite !hex_digit_upper.
  - change (String.concat "" (map Py.format_02X (b :: b' :: bs)))
      with (Py.format_02X b ++ "" ++ String.concat "" (map Py.format_02X (b' :: bs)))%string.
    simpl. rewrite !hex_digit_upper. exact IH.
Qed.

Lemma hex_of_bytes_cons (b : Z) (bs : list Z) :
  Py.hex_of_bytes (b :: bs)
  = String (Py.hex_digit (b / 16))
      (String (Py.hex_digit (b mod 16)) (Py.hex_of_bytes bs)).
Proof.
  unfold Py.hex_of_bytes. destruct bs as [|b' bs]; reflexivity.
Qed.

Lemma hex_of_bytes_length (bs : list Z) :
  String.length (Py.hex_of_bytes bs) = (2 * List.length bs)%nat.
Proof.
  induction bs as [|b bs IH]; [reflexivity|].
  rewrite hex_of_bytes_cons. simpl String.length. rewrite IH. simpl. lia.
Qed.

(** C1.  For every image of positive width and every set of parameters,
    [print_image] emits exactly the ZPL text of the format: the fixed
    commands with the parameters in decimal, the [^GFA] header with the
    total byte count twice and the bytes per row, the hex rows joined by
    newlines, and the closing commands.  Every numeric field is a decimal
    integer without leading zeros; every hex row is made of upper-case hex
    digits only, two per byte. *)
Theorem print_image_text (luma : rgb -> Z) (s : Settings) (pil_image : PILImage) :
  let img := to_black_and_white luma (threshold s) pil_image in
  let bytes_per_row := bytes_per_row_of (width img) in
  let total_bytes := bytes_per_row * height img in
  let hex_rows :=
    map (fun y => Py.hex_of_bytes (row_bytes img y)) (Py.range (height img)) in
  0 < width img ->
  print_image luma s pil_image
  = Ok ("^XA" ++ Py.NL
        ++ "^PW" ++ Py.str (pw s) ++ Py.NL
        ++ "^LL" ++ Py.str (ll s) ++ Py.NL
        ++ "^PR" ++ Py.str (print_speed s) ++ ",0,0" ++ Py.NL
        ++ "^MD" ++ Py.str (darkness s) ++ Py.NL
        ++ "^PQ" ++ Py.str (quantity s) ++ Py.NL
        ++ "^FO" ++ Py.str (position_x s) ++ "," ++ Py.str (position_y s) ++ Py.NL
        ++ "^GFA," ++ Py.str total_bytes ++ "," ++ Py.str total_bytes
        ++ "," ++ Py.str bytes_per_row ++ "," ++ Py.NL
        ++ Py.join Py.NL hex_rows ++ Py.NL
        ++ "^FS" ++ Py.NL ++ "^XZ")%string
  /\ Forall (fun n => canonical_decimal (Py.str n) = true)
       [pw s; ll s; print_speed s; darkness s; quantity s;
        position_x s; position_y s; total_bytes; bytes_per_row]
  /\ Forall (fun r => upper_hex_row r = true
                      /\ String.length r = (2 * Z.to_nat bytes_per_row)%nat)
       hex_rows.
Proof.
  intros img bytes_per_row total_bytes hex_rows Hw. split; [|split].
  - rewrite print_image_rows by exact Hw. reflexivity.
  - repeat constructor; apply str_canonical.
  - apply Forall_forall. intros r Hr. apply in_map_iff in Hr.
    destruct Hr as (y & <- & _). split.
    + apply hex_of_bytes_upper.
    + rewrite hex_of_bytes_length, row_bytes_length. reflexivity.
Qed.

Lemma print_image_text_witness :
  print_image luma_601 demo_settings (ModeL (img_of_rows 0 10 demo_rows))
  = Ok ("^XA" ++ Py.NL ++ "^PW812" ++ Py.NL ++ "^LL1218" ++ Py.NL
        ++ "^PR2,0,0" ++ Py.NL ++ "^MD25" ++ Py.NL ++ "^PQ1" ++ Py.NL
        ++ "^FO0,10" ++ Py.NL ++ "^GFA,4,4,2," ++ Py.NL
        ++ "F0C0" ++ Py.NL ++ "5540" ++ Py.NL ++ "^FS" ++ Py.NL ++ "^XZ")%string.
Proof.
  assert (Hw : 0 < width (to_black_and_white luma_601 (threshold demo_settings)
                            (ModeL (img_of_rows 0 10 demo_rows))))
    by (vm_compute; reflexivity).
  destruct (print_image_text luma_601 demo_settings
              (ModeL (img_of_rows 0 10 demo_rows)) Hw) as [Htext _].
  rewrite Htext. vm_compute. reflexivity.
Defined.

(** *** Reading the hex body back *)

Lemma unhex_hex_digit (d : Z) :
  0 <= d < 16 -> unhex_digit (Py.hex_digit d) = Some d.
Proof.
  intros H.
  assert (Hd : In d (Py.range 16)) by (apply range_In; exact H).
  vm_compute in Hd.
  repeat (destruct Hd as [<-|Hd]; [reflexivity|]). destruct Hd.
Qed.

Lemma unhex_hex_of_bytes (bs : list Z) :
  Forall (fun b => 0 <= b < 256) bs ->
  unhex (Py.hex_of_bytes bs) = Some bs.
Proof.
  induction 1 as [|b bs Hb _ IH]; [reflexivity|].
  rewrite hex_of_bytes_cons. cbn [unhex].
  rewrite !unhex_hex_digit, IH.
  - f_equal. f_equal. pose proof (Z.div_mod b 16). lia.
  - apply Z.mod_pos_bound. lia.
  - split; [apply Z.div_pos; lia | apply Z.div_lt_upper_bound; lia].
Qed.

Lemma bits_of_byte_of_bits (b0 b1 b2 b3 b4 b5 b6 b7 : bool) :
  bits_of_byte (byte_of_bits [b0; b1; b2; b3; b4; b5; b6; b7])
  = [b0; b1; b2; b3; b4; b5; b6; b7].
Proof.
  destruct b0, b1, b2, b3, b4, b5, b6, b7; reflexivity.
Qed.

Lemma byte_of_bits_range (b0 b1 b2 b3 b4 b5 b6 b7 : bool) :
  0 <= byte_of_bits [b0; b1; b2; b3; b4; b5; b6; b7] < 256.
Proof.
  destruct b0, b1, b2, b3, b4, b5, b6, b7; vm_compute; split; congruence.
Qed.

Lemma row_bytes_range (i : Image Z) (y : Z) :
  Forall (fun b => 0 <= b < 256) (row_bytes i y).
Proof.
  apply Forall_forall. intros b Hb. unfold row_bytes in Hb.
  apply in_map_iff in Hb. destruct Hb as (j & <- & _).
  apply byte_of_bits_range.
Qed.

Lemma range_app (a b : Z) :
  0 <= a -> 0 <= b ->
  Py.range (a + b) = Py.range a ++ map (fun k => a + k) (Py.range b).
Proof.
  intros Ha Hb. unfold Py.range.
  replace (Z.to_nat (a + b)) with (Z.to_nat a + Z.to_nat b)%nat by lia.
  rewrite seq_app, map_app. f_equal.
  generalize 0%nat. induction (Z.to_nat b) as [|n IH]; intros s.
  - reflexivity.
  - simpl. f_equal; [lia|]. apply (IH (S s)).
Qed.

(** The bits of the bytes of a row are the bits of its columns, up to the
    next multiple of eight. *)
Lemma row_bytes_bits (i : Image Z) (y : Z) :
  flat_map bits_of_byte (row_bytes i y)
  = map (fun x => bit i x y) (Py.range (8 * bytes_per_row_of (width i))).
Proof.
  unfold row_bytes, bytes_per_row_of.
  generalize ((width i + 7) / 8). intros n.
  destruct (Z.le_gt_cases n 0) as [Hn|Hn].
  - rewrite (range_nonpos n), (range_nonpos (8 * n)) by lia. reflexivity.
  - rewrite <- (Z2Nat.id n) by lia. induction (Z.to_nat n) as [|m IH].
    + reflexivity.
    + rewrite Nat2Z.inj_succ. unfold Z.succ.
      rewrite range_succ by lia. rewrite map_app, flat_map_app, IH.
      replace (8 * (Z.of_nat m + 1)) with (8 * Z.of_nat m + 8) by lia.
      rewrite (range_app (8 * Z.of_nat m) 8) by lia.
      rewrite map_app. f_equal.
      cbn [map flat_map]. rewrite List.app_nil_r.
      change (Py.range 8) with [0; 1; 2; 3; 4; 5; 6; 7].
      cbn [map]. apply bits_of_byte_of_bits.
Qed.

Lemma map_const_repeat {A B : Type} (f : A -> B) (c : B) (l : list A) :
  (forall a, In a l -> f a = c) -> map f l = repeat c (List.length l).
Proof.
  induction l as [|a l IH]; intros H; [reflexivity|].
  simpl. rewrite H by (simpl; auto).
  rewrite IH by (intros b Hb; apply H; simpl; auto). reflexivity.
Qed.

Lemma row_bits_padded (i : Image Z) (y : Z) :
  0 < width i ->
  map (fun x => bit i x y) (Py.range (8 * bytes_per_row_of (width i)))
  = padded_row_bits i y.
Proof.
  intros Hw. unfold padded_row_bits.
  assert (Hb : width i <= 8 * bytes_per_row_of (width i)).
  { unfold bytes_per_row_of.
    pose proof (Z.div_mod (width i + 7) 8).
    pose proof (Z.mod_pos_bound (width i + 7) 8). lia. }
  replace (8 * bytes_per_row_of (width i))
    with (width i + (8 * bytes_per_row_of (width i) - width i)) at 1 by lia.
  rewrite range_app, map_app by lia. f_equal.
  - apply map_ext_in. intros x Hx. apply range_In in Hx. unfold bit.
    replace (x <? width i) with true by lia. reflexivity.
  - rewrite map_map.
    rewrite <- (range_length (8 * bytes_per_row_of (width i) - width i)).
    apply map_const_repeat. intros k Hk. apply range_In in Hk. unfold bit.
    replace (width i + k <? width i) with false by lia. reflexivity.
Qed.

Lemma upper_hex_no_newline (s : string) :
  upper_hex_row s = true -> no_newline s = true.
Proof.
  unfold upper_hex_row, no_newline. rewrite !forallb_forall.
  intros H c Hc. specialize (H c Hc).
  destruct (Ascii.eqb_spec c "010") as [->|]; [discriminate H | reflexivity].
Qed.

Lemma split_lines_single (s : string) :
  no_newline s = true -> split_lines s = [s].
Proof.
  unfold no_newline. induction s as [|c s IH]; [reflexivity|].
  cbn [list_ascii_of_string forallb split_lines].
  intros H. apply andb_prop in H. destruct H as [Hc Hs].
  destruct (Ascii.eqb c "010"); [discriminate Hc|].
  now rewrite IH.
Qed.

Lemma split_lines_app (s t : string) :
  no_newline s = true ->
  split_lines (s ++ Py.NL ++ t) = s :: split_lines t.
Proof.
  unfold no_newline. induction s as [|c s IH]; [reflexivity|].
  cbn [list_ascii_of_string forallb split_lines String.append].
  intros H. apply andb_prop in H. destruct H as [Hc Hs].
  destruct (Ascii.eqb c "010"); [discriminate Hc|].
  now rewrite IH.
Qed.

Lemma split_lines_join (rows : list string) :
  rows <> [] ->
  Forall (fun r => no_newline r = true) rows ->
  split_lines (Py.join Py.NL rows) = rows.
Proof.
  intros Hne H. induction H as [|r rows Hr Hrows IH]; [congruence|].
  destruct rows as [|r' rows].
  - simpl. now apply split_lines_single.
  - change (Py.join Py.NL (r :: r' :: rows))
      with (r ++ Py.NL ++ Py.join Py.NL (r' :: rows))%string.
    rewrite split_lines_app by exact Hr. f_equal. apply IH. discriminate.
Qed.

Lemma decode_row_bytes (i : Image Z) (y : Z) :
  0 < width i ->
  decode_row (Py.hex_of_bytes (row_bytes i y)) = Some (padded_row_bits i y).
Proof.
  intros Hw. unfold decode_row.
  rewrite unhex_hex_of_bytes by apply row_bytes_range. simpl.
  now rewrite row_bytes_bits, row_bits_padded.
Qed.

Lemma decode_rows (i : Image Z) (ys : list Z) :
  0 < width i ->
  sequence (map decode_row (map (fun y => Py.hex_of_bytes (row_bytes i y)) ys))
  = Some (map (padded_row_bits i) ys).
Proof.
  intros Hw. induction ys as [|y ys IH]; [reflexivity|].
  cbn [map sequence]. rewrite decode_row_bytes by exact Hw.
  now rewrite IH.
Qed.

Lemma decode_hex_body (i : Image Z) :
  0 < width i -> 0 < height i ->
  decode_hex (Py.join Py.NL
                (map (fun y => Py.hex_of_bytes (row_bytes i y))
                     (Py.range (height i))))
  = Some (map (padded_row_bits i) (Py.range (height i))).
Proof.
  intros Hw Hh. unfold decode_hex. rewrite split_lines_join.
  - apply decode_rows. exact Hw.
  - intros E. apply (f_equal (@List.length string)) in E.
    rewrite length_map, range_length in E. simpl in E. lia.
  - apply Forall_forall. intros r Hr. apply in_map_iff in Hr.
    destruct Hr as (y & <- & _).
    apply upper_hex_no_newline, hex_of_bytes_upper.
Qed.

(** C2.  For an image of width W > 0 and height H > 0 the encoder uses
    ceil(W/8) bytes per row and that many times H bytes in all (102 and
    124236 for 812 by 1218), and its hex body, read back line by line, two
    hex digits per byte, most significant bit first, gives the rows of the
    image bit for bit, each followed by the zero bits that fill its last
    byte. *)
Theorem encode_decode_roundtrip (luma : rgb -> Z) (s : Settings)
  (pil_image : PILImage) :
  let img := to_black_and_white luma (threshold s) pil_image in
  let bytes_per_row := bytes_per_row_of (width img) in
  let total_bytes := bytes_per_row * height img in
  let hex_data :=
    Py.join Py.NL
      (map (fun y => Py.hex_of_bytes (row_bytes img y)) (Py.range (height img))) in
  0 < width img -> 0 < height img ->
  print_image luma s pil_image
  = Ok (zpl_text s total_bytes bytes_per_row hex_data)
  /\ 8 * (bytes_per_row - 1) < width img <= 8 * bytes_per_row
  /\ (width img = 812 -> height img = 1218 ->
      bytes_per_row = 102 /\ total_bytes = 124236)
  /\ decode_hex hex_data
     = Some (map (padded_row_bits img) (Py.range (height img))).
Proof.
  intros img bytes_per_row total_bytes hex_data Hw Hh.
  split; [|split; [|split]].
  - apply print_image_rows. exact Hw.
  - unfold bytes_per_row, bytes_per_row_of.
    pose proof (Z.div_mod (width img + 7) 8).
    pose proof (Z.mod_pos_bound (width img + 7) 8). lia.
  - intros Ew Eh. unfold total_bytes, bytes_per_row. rewrite Ew, Eh.
    split; reflexivity.
  - unfold decode_hex, hex_data. rewrite split_lines_join.
    + apply decode_rows. exact Hw.
    + intros E. apply (f_equal (@List.length string)) in E.
      rewrite length_map, range_length in E. simpl in E. lia.
    + apply Forall_forall. intros r Hr. apply in_map_iff in Hr.
      destruct Hr as (y & <- & _).
      apply upper_hex_no_newline, hex_of_bytes_upper.
Qed.

Lemma encode_decode_roundtrip_witness :
  decode_hex ("0F00" ++ Py.NL ++ "AA80")
  = Some [[false; false; false; false; true; true; true; true; false; false;
           false; false; false; false; false; false];
          [true; false; true; false; true; false; true; false; true; false;
           false; false; false; false; false; false]].
Proof.
  assert (Hw : 0 < width (to_black_and_white luma_601 (threshold demo_settings)
                            (Mode1 (img_of_rows 0 10 demo_rows))))
    by (vm_compute; reflexivity).
  assert (Hh : 0 < height (to_black_and_white luma_601 (threshold demo_settings)
                             (Mode1 (img_of_rows 0 10 demo_rows))))
    by (vm_compute; reflexivity).
  destruct (encode_decode_roundtrip luma_601 demo_settings
              (Mode1 (img_of_rows 0 10 demo_rows)) Hw Hh) as (_ & _ & _ & Hd).
  exact Hd.
Defined.

(** *** Images without pixels *)

(** C3, against the claim: a bitmap five pixels wide and zero pixels high
    is not rejected; the text is emitted, with a [^GFA] field of zero
    bytes and an empty hex body. *)
Lemma print_image_zero_height_emitted :
  print_image luma_601 demo_settings (Mode1 (img_of_rows 0 5 []))
  = Ok ("^XA" ++ Py.NL ++ "^PW812" ++ Py.NL ++ "^LL1218" ++ Py.NL
        ++ "^PR2,0,0" ++ Py.NL ++ "^MD25" ++ Py.NL ++ "^PQ1" ++ Py.NL
        ++ "^FO0,10" ++ Py.NL ++ "^GFA,0,0,1," ++ Py.NL
        ++ "" ++ Py.NL ++ "^FS" ++ Py.NL ++ "^XZ")%string.
Proof. vm_compute. reflexivity. Qed.

(** C3, as the code has it.  The encoder does not check the size of the
    bitmap.  With a width of zero the step of the loop over the rows is
    zero, [range] raises, and [print_image] reports the error and emits
    nothing; with a positive width and a height of zero it emits the text
    with a total of zero bytes and an empty hex body. *)
Theorem print_image_empty_bitmap (luma : rgb -> Z) (s : Settings)
  (pil_image : PILImage) :
  let img := to_black_and_white luma (threshold s) pil_image in
  (width img = 0 ->
   print_image luma s pil_image
   = Raise (ValueError "range() arg 3 must not be zero"))
  /\ (0 < width img -> height img = 0 ->
      print_image luma s pil_image
      = Ok (zpl_text s 0 (bytes_per_row_of (width img)) EmptyString)).
Proof.
  intros img. split.
  - intros Ew. unfold print_image. fold img. rewrite Ew. reflexivity.
  - intros Hw Eh. rewrite print_image_rows by exact Hw. fold img.
    rewrite Eh, Z.mul_0_r. reflexivity.
Qed.

Lemma print_image_empty_bitmap_witness :
  print_image luma_601 demo_settings (Mode1 (img_of_rows 0 0 [[]; []]))
  = Raise (ValueError "range() arg 3 must not be zero")
  /\ print_image luma_601 demo_settings (Mode1 (img_of_rows 0 5 []))
     = Ok (zpl_text demo_settings 0 1 EmptyString).
Proof.
  split.
  - apply (proj1 (print_image_empty_bitmap luma_601 demo_settings
                    (Mode1 (img_of_rows 0 0 [[]; []])))).
    reflexivity.
  - apply (proj2 (print_image_empty_bitmap luma_601 demo_settings
                    (Mode1 (img_of_rows 0 5 [])))).
    + reflexivity.
    + reflexivity.
Defined.

(** *** Images that are already black and white *)

(** The bits of a thresholded image: what [point] made of a sample is
    not zero exactly when the sample is below the threshold. *)
Lemma thresholded_rows {A : Type} (g : A -> Z) (t : Z) (j : Image A) :
  map (padded_row_bits (point (fun a => if g a >=? t then 0 else 255) j))
      (Py.range (height j))
  = sample_rows (fun a => g a <? t) j.
Proof.
  unfold sample_rows, padded_row_bits.
  cbn [point width height getpixel].
  apply map_ext. intros y. f_equal. apply map_ext. intros x.
  destruct (Z.geb_spec (g (getpixel j x y)) t),
           (Z.ltb_spec (g (getpixel j x y)) t); try lia; reflexivity.
Qed.

(** C10, against the claim: at a threshold of 0, which the threshold box
    offers, the picture [demo_rows] handed over as grey prints blank,
    while the same picture in mode ['1'] prints its white pixels; its
    black pixel at the top left gets a clear bit both times, so the two
    prints are not of opposite polarity. *)
Lemma threshold_zero_same_polarity :
  print_image luma_601 (mkSettings 0 0 10 2 25 1 812 1218)
    (ModeL (img_of_rows 0 10 demo_rows))
  = Ok (zpl_text (mkSettings 0 0 10 2 25 1 812 1218) 4 2
          ("0000" ++ Py.NL ++ "0000"))
  /\ print_image luma_601 (mkSettings 0 0 10 2 25 1 812 1218)
       (Mode1 (img_of_rows 0 10 demo_rows))
     = Ok (zpl_text (mkSettings 0 0 10 2 25 1 812 1218) 4 2
             ("0F00" ++ Py.NL ++ "AA80"))
  /\ getpixel (img_of_rows 0 10 demo_rows) 0 0 = 0
  /\ bit (to_black_and_white luma_601 0 (ModeL (img_of_rows 0 10 demo_rows))) 0 0
     = false
  /\ bit (to_black_and_white luma_601 0 (Mode1 (img_of_rows 0 10 demo_rows))) 0 0
     = false.
Proof. repeat split; vm_compute; reflexivity. Qed.

(** C10, as the code has it.  For an image already in mode ['1'] the
    threshold does not enter the output: any two thresholds give the
    same result.  For an image with pixels, the emitted text carries the
    samples of the mode ['1'] image as they are (bit set where the sample
    is not zero), whereas a grey or colour image gets a set bit where the
    grey sample is below the threshold.  So, for a threshold from 1 to
    255, a black-and-white picture (samples 0 and 255) handed over in mode
    ['1'] is emitted with, at every pixel, the opposite bit of the same
    picture handed over as grey. *)
Theorem bilevel_packs_directly (luma : rgb -> Z) (i : Image Z) (c : Image rgb)
  (t1 t2 x0 y0 speed dark qty w l : Z) :
  let s1 := mkSettings t1 x0 y0 speed dark qty w l in
  let s2 := mkSettings t2 x0 y0 speed dark qty w l in
  let text (wd ht : Z) (body : string) :=
    zpl_text s1 (bytes_per_row_of wd * ht) (bytes_per_row_of wd) body in
  print_image luma s1 (Mode1 i) = print_image luma s2 (Mode1 i)
  /\ (0 < width i -> 0 < height i ->
      print_image luma s1 (Mode1 i) = Ok (text (width i) (height i) (hex_body i))
      /\ decode_hex (hex_body i) = Some (sample_rows (fun v => negb (v =? 0)) i)
      /\ (exists body,
            print_image luma s1 (ModeL i) = Ok (text (width i) (height i) body)
            /\ decode_hex body = Some (sample_rows (fun v => v <? t1) i)
            /\ (0 < t1 <= 255 ->
                (forall x y, 0 <= x < width i -> 0 <= y < height i ->
                   getpixel i x y = 0 \/ getpixel i x y = 255) ->
                decode_hex body
                = Some (sample_rows (fun v => negb (negb (v =? 0))) i))))
  /\ (0 < width c -> 0 < height c ->
      exists body,
        print_image luma s1 (ModeRGB c) = Ok (text (width c) (height c) body)
        /\ decode_hex body = Some (sample_rows (fun p => luma p <? t1) c)).
Proof.
  intros s1 s2 text. split; [reflexivity|]. split.
  - intros Hw Hh. split; [|split].
    + apply (print_image_rows luma s1 (Mode1 i)). exact Hw.
    + unfold hex_body. rewrite decode_hex_body by assumption. reflexivity.
    + set (grey := to_black_and_white luma t1 (ModeL i)).
      assert (Hdec : decode_hex (hex_body grey)
                     = Some (sample_rows (fun v => v <? t1) i)).
      { unfold hex_body. rewrite (decode_hex_body grey) by assumption.
        f_equal. apply (thresholded_rows (fun v => v) t1 i). }
      exists (hex_body grey). split; [|split].
      * apply (print_image_rows luma s1 (ModeL i)). exact Hw.
      * exact Hdec.
      * intros Ht Hbw. rewrite Hdec. f_equal. unfold sample_rows.
        apply map_ext_in. intros y Hy. apply range_In in Hy. f_equal.
        apply map_ext_in. intros x Hx. apply range_In in Hx.
        destruct (Hbw x y Hx Hy) as [-> | ->].
        -- replace (0 <? t1) with true by lia. reflexivity.
        -- replace (255 <? t1) with false by lia. reflexivity.
  - intros Hw Hh.
    set (grey := to_black_and_white luma t1 (ModeRGB c)).
    exists (hex_body grey). split.
    + apply (print_image_rows luma s1 (ModeRGB c)). exact Hw.
    + unfold hex_body. rewrite (decode_hex_body grey) by assumption.
      f_equal. apply (thresholded_rows luma t1 c).
Qed.

Lemma bilevel_packs_directly_witness :
  print_image luma_601 (mkSettings 128 0 10 2 25 1 812 1218)
    (Mode1 (img_of_rows 0 10 demo_rows))
  = Ok (zpl_text (mkSettings 128 0 10 2 25 1 812 1218) 4 2
          ("0F00" ++ Py.NL ++ "AA80"))
  /\ exists body,
       print_image luma_601 (mkSettings 128 0 10 2 25 1 812 1218)
         (ModeL (img_of_rows 0 10 demo_rows))
       = Ok (zpl_text (mkSettings 128 0 10 2 25 1 812 1218) 4 2 body)
       /\ decode_hex body
          = Some (sample_rows (fun v => negb (negb (v =? 0)))
                    (img_of_rows 0 10 demo_rows)).
Proof.
  assert (Hw : 0 < width (img_of_rows 0 10 demo_rows)) by (simpl; lia).
  assert (Hh : 0 < height (img_of_rows 0 10 demo_rows))
    by (change (height (img_of_rows 0 10 demo_rows)) with 2; lia).
  assert (Ht : 0 < 128 <= 255) by lia.
  assert (Hbw : forall x y,
             0 <= x < width (img_of_rows 0 10 demo_rows) ->
             0 <= y < height (img_of_rows 0 10 demo_rows) ->
             getpixel (img_of_rows 0 10 demo_rows) x y = 0
             \/ getpixel (img_of_rows 0 10 demo_rows) x y = 255).
  { intros x y Hx Hy.
    change (width (img_of_rows 0 10 demo_rows)) with 10 in Hx.
    change (height (img_of_rows 0 10 demo_rows)) with 2 in Hy.
    assert (Hxi : In x (Py.range 10)) by (apply range_In; lia).
    assert (Hyi : In y (Py.range 2)) by (apply range_In; lia).
    vm_compute in Hxi, Hyi.
    repeat (destruct Hyi as [<-|Hyi]; [|]); try contradiction;
      repeat (destruct Hxi as [<-|Hxi];
              [first [left; reflexivity | right; reflexivity]|]);
      contradiction. }
  destruct (proj1 (proj2
              (bilevel_packs_directly luma_601 (img_of_rows 0 10 demo_rows)
                 blank_page 128 128 0 10 2 25 1 812 1218)) Hw Hh)
    as (Hone & _ & body & Hgrey & _ & Hopp).
  split; [exact Hone|].
  exists body. split; [exact Hgrey | exact (Hopp Ht Hbw)].
Defined.

(** ** Label region recovery *)

Lemma filter_none {A : Type} (f : A -> bool) (l : list A) :
  (forall a, In a l -> f a = false) -> filter f l = [].
Proof.
  induction l as [|a l IH]; intros H; [reflexivity|].
  simpl. rewrite H by (simpl; auto).
  apply IH. intros b Hb. apply H. simpl. auto.
Qed.

Lemma existsb_none {A : Type} (f : A -> bool) (l : list A) :
  (forall a, In a l -> f a = false) -> existsb f l = false.
Proof.
  induction l as [|a l IH]; intros H; [reflexivity|].
  simpl. rewrite H by (simpl; auto). simpl.
  apply IH. intros b Hb. apply H. simpl. auto.
Qed.

(** An image whose samples are all zero has no bounding box. *)
Lemma getbbox_blank (i : Image Z) :
  (forall x y, 0 <= x < width i -> 0 <= y < height i -> getpixel i x y = 0) ->
  getbbox i = None.
Proof.
  intros H. unfold getbbox.
  rewrite (filter_none _ (Py.range (width i))); [reflexivity|].
  intros x Hx. apply range_In in Hx. apply existsb_none.
  intros y Hy. apply range_In in Hy. now rewrite H.
Qed.

Lemma range_from_sorted (len start : nat) :
  StronglySorted Z.lt (map Z.of_nat (seq start len)).
Proof.
  revert start. induction len as [|len IH]; intros start; simpl.
  - constructor.
  - constructor; [apply IH|]. apply Forall_forall. intros y Hy.
    apply in_map_iff in Hy. destruct Hy as (k & <- & Hk).
    apply in_seq in Hk. lia.
Qed.

Lemma filter_sorted (f : Z -> bool) (l : list Z) :
  StronglySorted Z.lt l -> StronglySorted Z.lt (filter f l).
Proof.
  induction 1 as [|a l Hl IH Ha]; simpl; [constructor|].
  destruct (f a); [|exact IH]. constructor; [exact IH|].
  apply Forall_forall. intros y Hy. apply filter_In in Hy.
  rewrite Forall_forall in Ha. apply Ha. tauto.
Qed.

Lemma last_cons_default {A : Type} (l : list A) (b a : A) :
  last (b :: l) a = last l b.
Proof.
  revert b a. induction l as [|z l IH]; intros b a; [reflexivity|].
  change (last (b :: z :: l) a) with (last (z :: l) a).
  now rewrite (IH z a), (IH z b).
Qed.

Lemma sorted_first_last (l : list Z) (a : Z) :
  StronglySorted Z.lt (a :: l) ->
  In (last l a) (a :: l) /\ forall y, In y (a :: l) -> a <= y <= last l a.
Proof.
  revert a. induction l as [|b l IH]; intros a Hs.
  - simpl. split; [auto|]. intros y [<-|[]]. lia.
  - inversion Hs as [|? ? Hs' Hall]; subst.
    destruct (IH b Hs') as [Hin Hb].
    rewrite last_cons_default. split; [right; exact Hin|].
    intros y [<-|Hy].
    + rewrite Forall_forall in Hall.
      specialize (Hall b (or_introl eq_refl)).
      specialize (Hb b (or_introl eq_refl)). lia.
    + rewrite Forall_forall in Hall.
      specialize (Hall b (or_introl eq_refl)).
      specialize (Hb y Hy). lia.
Qed.

(** The first and the last index below [n] that pass a test. *)
Lemma filter_range_bounds (f : Z -> bool) (n a : Z) (l : list Z) :
  filter f (Py.range n) = a :: l ->
  (0 <= a < n /\ f a = true)
  /\ (0 <= last l a < n /\ f (last l a) = true)
  /\ forall y, 0 <= y < n -> f y = true -> a <= y <= last l a.
Proof.
  intros E.
  assert (Hs : StronglySorted Z.lt (a :: l)).
  { rewrite <- E. apply filter_sorted. apply range_from_sorted. }
  destruct (sorted_first_last l a Hs) as [Hin Hb].
  assert (Hmem : forall y, In y (a :: l) <-> (0 <= y < n /\ f y = true)).
  { intros y. rewrite <- E, filter_In, range_In. tauto. }
  split; [apply Hmem; simpl; auto|].
  split; [apply Hmem; exact Hin|].
  intros y Hy Hf. apply Hb. apply Hmem. tauto.
Qed.

(** What the bounding box says about the rows: its upper edge is the
    first row with a non-zero sample, its lower edge is just below the
    last one. *)
Lemma getbbox_rows (i : Image Z) (x0 y0 x1 y1 : Z) :
  getbbox i = Some (x0, y0, x1, y1) ->
  let inked y := exists x, 0 <= x < width i /\ getpixel i x y <> 0 in
  0 <= y0 < y1 /\ y1 <= height i
  /\ inked y0 /\ inked (y1 - 1)
  /\ forall y, 0 <= y < height i -> inked y -> y0 <= y < y1.
Proof.
  intros E inked. unfold getbbox in E.
  set (f := fun y => existsb (fun x => negb (getpixel i x y =? 0))
                             (Py.range (width i))) in E.
  destruct (filter _ (Py.range (width i))) as [|c cols]; [discriminate|].
  destruct (filter f (Py.range (height i))) as [|r rows] eqn:Er; [discriminate|].
  injection E as <- <- <- <-.
  destruct (filter_range_bounds f _ _ _ Er) as ((Hr & Hfr) & (Hl & Hfl) & Hall).
  assert (Hink : forall y, f y = true <-> inked y).
  { intros y. unfold f, inked. rewrite existsb_exists. split.
    - intros (x & Hx & Hp). exists x. apply range_In in Hx.
      split; [exact Hx|]. apply negb_true_iff, Z.eqb_neq in Hp. exact Hp.
    - intros (x & Hx & Hp). exists x. split; [apply range_In; exact Hx|].
      apply negb_true_iff, Z.eqb_neq. exact Hp. }
  pose proof (Hall r Hr Hfr) as Hrl.
  split; [lia|]. split; [lia|]. split; [apply Hink; exact Hfr|].
  split; [replace (last rows r + 1 - 1) with (last rows r) by lia;
          apply Hink; exact Hfl|].
  intros y Hy Hi. apply Hink in Hi. specialize (Hall y Hy Hi). lia.
Qed.

Lemma is_letter_size_spec (w h : float) :
  is_letter_size w h = true
  <-> (flt 7.5 w /\ flt w 9.5 /\ flt 10 h /\ flt h 12)
      \/ (flt 10 w /\ flt w 12 /\ flt 7.5 h /\ flt h 9.5).
Proof.
  unfold is_letter_size, flt.
  rewrite orb_true_iff, !andb_true_iff. tauto.
Qed.

(** C4.  A page is letter-like exactly when its size in inches lies
    strictly inside 7.5-9.5 by 10-12 or inside the transposed band; and a
    page that is not letter-like is returned as it was rendered. *)
Theorem not_letter_identity (luma : rgb -> Z) (rect_width rect_height : float)
  (target_dpi : Z) (img : Image rgb) :
  (forall w h : float,
     is_letter_size w h = true
     <-> (flt 7.5 w /\ flt w 9.5 /\ flt 10 h /\ flt h 12)
         \/ (flt 10 w /\ flt w 12 /\ flt 7.5 h /\ flt h 9.5))
  /\ (is_letter_size (rect_width / 72) (rect_height / 72) = false ->
      extract_label_from_pdf luma rect_width rect_height target_dpi img = Ok img).
Proof.
  split.
  - apply is_letter_size_spec.
  - intros H. unfold extract_label_from_pdf. now rewrite H.
Qed.

(** C8.  On a letter-like page without any grey sample below 240 the
    detector finds no bounding box, and the page is returned as it was
    rendered. *)
Theorem blank_page_identity (luma : rgb -> Z) (rect_width rect_height : float)
  (target_dpi : Z) (img : Image rgb) :
  is_letter_size (rect_width / 72) (rect_height / 72) = true ->
  (forall x y, 0 <= x < width img -> 0 <= y < height img ->
               240 <= luma (getpixel img x y)) ->
  getbbox (invert (binary_of luma img)) = None
  /\ extract_label_from_pdf luma rect_width rect_height target_dpi img = Ok img.
Proof.
  intros Hletter Hwhite.
  assert (Hnone : getbbox (invert (binary_of luma img)) = None).
  { apply getbbox_blank. intros x y Hx Hy. simpl in Hx, Hy. simpl.
    unfold threshold_fn. specialize (Hwhite x y Hx Hy).
    replace (luma (getpixel img x y) <? 240) with false by lia. reflexivity. }
  split; [exact Hnone|].
  unfold extract_label_from_pdf. now rewrite Hletter, Hnone.
Qed.

Lemma bbox_covers_page_spec (img : Image rgb) (b0 b1 b2 b3 : Z) :
  bbox_covers_page img (b0, b1, b2, b3) = true
  <-> flt (Py.float_of_int b0) (Py.float_of_int (width img) * 0.05)
      /\ flt (Py.float_of_int b1) (Py.float_of_int (height img) * 0.05)
      /\ flt (Py.float_of_int (width img) * 0.95) (Py.float_of_int b2)
      /\ flt (Py.float_of_int (height img) * 0.95) (Py.float_of_int b3).
Proof.
  unfold bbox_covers_page, flt. rewrite !andb_true_iff. tauto.
Qed.

(** C7.  On a letter-like page with a content box: when the left and top
    edges lie within 5% of the page and the right and bottom edges
    beyond 95%, the label is cut from what the column-density refinement
    returns (the detected box serves only when the refinement returns
    nothing); when one of the four conditions fails, the label is cut
    from the detected box and the refinement is not run. *)
Theorem coverage_routes_to_refinement (luma : rgb -> Z)
  (rect_width rect_height : float) (target_dpi : Z) (img : Image rgb)
  (b0 b1 b2 b3 : Z) :
  is_letter_size (rect_width / 72) (rect_height / 72) = true ->
  getbbox (invert (binary_of luma img)) = Some (b0, b1, b2, b3) ->
  let covers :=
    flt (Py.float_of_int b0) (Py.float_of_int (width img) * 0.05)
    /\ flt (Py.float_of_int b1) (Py.float_of_int (height img) * 0.05)
    /\ flt (Py.float_of_int (width img) * 0.95) (Py.float_of_int b2)
    /\ flt (Py.float_of_int (height img) * 0.95) (Py.float_of_int b3) in
  (covers ->
   extract_label_from_pdf luma rect_width rect_height target_dpi img
   = (refined <- column_density img (binary_of luma img) ;;
      crop_label target_dpi img
        (match refined with Some bbox => bbox | None => (b0, b1, b2, b3) end)))
  /\ (~ covers ->
      extract_label_from_pdf luma rect_width rect_height target_dpi img
      = crop_label target_dpi img (b0, b1, b2, b3)).
Proof.
  intros Hletter Hbbox covers.
  unfold extract_label_from_pdf. rewrite Hletter, Hbbox. simpl negb. cbv iota.
  unfold final_bbox. split; intros Hc.
  - apply bbox_covers_page_spec in Hc. rewrite Hc.
    destruct (column_density img (binary_of luma img)) as [[bbox|]|e]; reflexivity.
  - destruct (bbox_covers_page img (b0, b1, b2, b3)) eqn:E; [|reflexivity].
    apply bbox_covers_page_spec in E. contradiction.
Qed.

Lemma not_letter_identity_witness :
  extract_label_from_pdf luma_601 288 432 203 (mkImage 812 1218 (fun _ _ => black))
  = Ok (mkImage 812 1218 (fun _ _ => black)).
Proof.
  apply (proj2 (not_letter_identity luma_601 288 432 203
                  (mkImage 812 1218 (fun _ _ => black)))).
  vm_compute. reflexivity.
Defined.

Lemma blank_page_identity_witness :
  getbbox (invert (binary_of luma_601 blank_page)) = None
  /\ extract_label_from_pdf luma_601 612 792 203 blank_page = Ok blank_page.
Proof.
  apply (blank_page_identity luma_601 612 792 203 blank_page).
  - vm_compute. reflexivity.
  - intros x y _ _. vm_compute. discriminate.
Defined.

Lemma coverage_routes_to_refinement_witness :
  extract_label_from_pdf luma_601 612 792 5 demo_page
  = crop_label 5 demo_page (8, 3, 28, 47)
  /\ extract_label_from_pdf luma_601 612 792 5 demo_page_plain
     = crop_label 5 demo_page_plain (10, 5, 26, 45).
Proof.
  split.
  - assert (Hl : is_letter_size (612 / 72) (792 / 72) = true)
      by (vm_compute; reflexivity).
    assert (Hb : getbbox (invert (binary_of luma_601 demo_page))
                 = Some (0, 0, 42, 55)) by (vm_compute; reflexivity).
    rewrite (proj1 (coverage_routes_to_refinement luma_601 612 792 5
                      demo_page 0 0 42 55 Hl Hb)).
    + assert (Hr : column_density demo_page (binary_of luma_601 demo_page)
                   = Ok (Some (8, 3, 28, 47))) by (vm_compute; reflexivity).
      rewrite Hr. reflexivity.
    + repeat split; vm_compute; reflexivity.
  - assert (Hl : is_letter_size (612 / 72) (792 / 72) = true)
      by (vm_compute; reflexivity).
    assert (Hb : getbbox (invert (binary_of luma_601 demo_page_plain))
                 = Some (10, 5, 26, 45)) by (vm_compute; reflexivity).
    apply (proj2 (coverage_routes_to_refinement luma_601 612 792 5
                    demo_page_plain 10 5 26 45 Hl Hb)).
    intros (H & _). vm_compute in H. discriminate H.
Defined.

(** *** Orientation *)

Lemma needs_rotation_spec (aspect_ratio : float) (spans : bool) :
  needs_rotation aspect_ratio spans
  = ((1.0 <? aspect_ratio)%float || spans && (0.5 <? aspect_ratio)%float).
Proof.
  unfold needs_rotation.
  destruct (1.0 <? aspect_ratio)%float, spans, (0.5 <? aspect_ratio)%float;
    reflexivity.
Qed.

(** C5.  The crop of a letter-like page is rotated exactly when its
    aspect ratio width/height is above 1.0, or the height of the content
    box is above 70% of the page height and the aspect ratio is above
    0.5.  When it is rotated, the result is the crop turned once by a
    quarter turn counter-clockwise: width and height are swapped, the
    top-right pixel comes to the top-left, and every pixel of the crop is
    a pixel of the result and conversely.  Otherwise the crop is returned
    as it is. *)
Theorem rotation_rule (img : Image rgb) (b0 b1 b2 b3 : Z) (cropped : Image rgb) :
  height cropped <> 0 ->
  let aspect_ratio :=
    (Py.float_of_int (width cropped) / Py.float_of_int (height cropped))%float in
  let spans_page_height := spans_page_height_of img (b0, b1, b2, b3) in
  let rotate :=
    ((1.0 <? aspect_ratio)%float
     || spans_page_height && (0.5 <? aspect_ratio)%float) in
  (spans_page_height = true
   <-> flt (Py.float_of_int (height img) * 0.7) (Py.float_of_int (b3 - b1)))
  /\ orient img (b0, b1, b2, b3) cropped
     = Ok (if rotate then rotate90 cropped else cropped)
  /\ (forall target_dpi edges box,
        label_size target_dpi (b0, b1, b2, b3) = Ok edges ->
        crop_box img target_dpi (b0, b1, b2, b3) (fst edges) (snd edges) = Ok box ->
        crop (0, 0, 0) img box = Ok cropped ->
        crop_label target_dpi img (b0, b1, b2, b3)
        = Ok (if rotate then rotate90 cropped else cropped))
  /\ width (rotate90 cropped) = height cropped
  /\ height (rotate90 cropped) = width cropped
  /\ getpixel (rotate90 cropped) 0 0 = getpixel cropped (width cropped - 1) 0
  /\ (forall x y, 0 <= x < width cropped -> 0 <= y < height cropped ->
        0 <= y < width (rotate90 cropped)
        /\ 0 <= width cropped - 1 - x < height (rotate90 cropped)
        /\ getpixel (rotate90 cropped) y (width cropped - 1 - x)
           = getpixel cropped x y)
  /\ (forall x y, 0 <= x < width (rotate90 cropped) ->
        0 <= y < height (rotate90 cropped) ->
        0 <= width cropped - 1 - y < width cropped
        /\ 0 <= x < height cropped
        /\ getpixel (rotate90 cropped) x y
           = getpixel cropped (width cropped - 1 - y) x).
Proof.
  intros Hh aspect_ratio spans_page_height rotate.
  assert (Horient : orient img (b0, b1, b2, b3) cropped
                    = Ok (if rotate then rotate90 cropped else cropped)).
  { unfold orient, Py.truediv.
    replace (height cropped =? 0) with false by lia.
    cbn [bind]. rewrite needs_rotation_spec.
    fold aspect_ratio spans_page_height rotate.
    now destruct rotate. }
  split; [reflexivity|]. split; [exact Horient|]. split.
  - intros target_dpi edges box Hsize Hbox Hcrop.
    unfold crop_label. rewrite Hsize. cbn [bind]. rewrite Hbox. cbn [bind].
    rewrite Hcrop. cbn [bind]. exact Horient.
  - repeat split; simpl in *; try lia; f_equal; lia.
Qed.

Lemma rotation_rule_witness :
  orient demo_page (8, 3, 28, 47) (mkImage 30 20 (fun x y => getpixel demo_page (x + 3) (y + 15)))
  = Ok (rotate90 (mkImage 30 20 (fun x y => getpixel demo_page (x + 3) (y + 15)))).
Proof.
  assert (Hh : height (mkImage 30 20 (fun x y => getpixel demo_page (x + 3) (y + 15))) <> 0)
    by (simpl; lia).
  exact (proj1 (proj2 (rotation_rule demo_page 8 3 28 47 _ Hh))).
Defined.

(** *** Label size *)

(** C6.  The label size follows the larger of the two content extents
    in inches (box extent over DPI): above 5 the label is 6 by 4, else
    above 3 it is 4 by 2, else it is the two extents plus 0.2 each.  A box
    of 1230 by 820 pixels at 203 DPI gives a 6 by 4 label; on a page of
    1726 by 2234 pixels the crop is then 1218 by 812, its aspect ratio is
    above 1.0, and the crop is rotated. *)
Theorem label_size_rule (target_dpi b0 b1 b2 b3 : Z) :
  target_dpi <> 0 ->
  let content_width_in :=
    (Py.float_of_int (b2 - b0) / Py.float_of_int target_dpi)%float in
  let content_height_in :=
    (Py.float_of_int (b3 - b1) / Py.float_of_int target_dpi)%float in
  let larger := if (content_width_in <? content_height_in)%float
                then content_height_in else content_width_in in
  let smaller := if (content_height_in <? content_width_in)%float
                 then content_height_in else content_width_in in
  label_size target_dpi (b0, b1, b2, b3)
  = Ok (if (5 <? larger)%float then (6.0, 4.0)%float
        else if (3 <? larger)%float then (4.0, 2.0)%float
        else (larger + 0.2, smaller + 0.2)%float)
  /\ (forall x y, label_size 203 (x, y, x + 1230, y + 820) = Ok (6.0, 4.0)%float)
  /\ (forall (aspect_ratio : float) (spans : bool),
        flt 1.0 aspect_ratio -> needs_rotation aspect_ratio spans = true)
  /\ (forall pixels : Z -> Z -> rgb,
        let img := mkImage 1726 2234 pixels in
        crop_box img 203 (100, 200, 1330, 1020) 6.0 4.0
        = Ok (106, 204, 1324, 1016)
        /\ exists cropped,
             crop (0, 0, 0) img (106, 204, 1324, 1016) = Ok cropped
             /\ width cropped = 1218 /\ height cropped = 812
             /\ crop_label 203 img (100, 200, 1330, 1020)
                = Ok (rotate90 cropped)).
Proof.
  intros Hdpi cw ch larger smaller. split; [|split; [|split]].
  - unfold label_size, Py.truediv.
    replace (target_dpi =? 0) with false by lia. reflexivity.
  - intros x y. unfold label_size.
    replace (x + 1230 - x) with 1230 by lia.
    replace (y + 820 - y) with 820 by lia.
    vm_compute. reflexivity.
  - intros a sp Ha. unfold needs_rotation. unfold flt in Ha. now rewrite Ha.
  - intros pixels img. split; [vm_compute; reflexivity|].
    eexists. split; [reflexivity|]. split; [reflexivity|]. split; [reflexivity|].
    vm_compute. reflexivity.
Qed.

Lemma label_size_rule_witness :
  label_size 203 (100, 200, 300, 350)
  = Ok (200 / 203 + 0.2, 150 / 203 + 0.2)%float.
Proof.
  assert (Hdpi : 203 <> 0) by lia.
  rewrite (proj1 (label_size_rule 203 100 200 300 350 Hdpi)).
  vm_compute. reflexivity.
Defined.

(** *** Column-density refinement *)

Lemma flat_map_ext_in {A B : Type} (f g : A -> list B) (l : list A) :
  (forall a, In a l -> f a = g a) -> flat_map f l = flat_map g l.
Proof.
  induction l as [|a l IH]; intros H; [reflexivity|].
  simpl. rewrite H by (simpl; auto). f_equal.
  apply IH. intros b Hb. apply H. simpl. auto.
Qed.

Lemma mapM_ok {A B : Type} (f : A -> result B) (g : A -> B) (l : list A) :
  (forall a, In a l -> f a = Ok (g a)) -> mapM f l = Ok (map g l).
Proof.
  induction l as [|a l IH]; intros H; [reflexivity|].
  simpl. rewrite H by (simpl; auto). simpl.
  rewrite IH by (intros b Hb; apply H; simpl; auto). reflexivity.
Qed.

Lemma filter_map_length {A B : Type} (p : B -> bool) (f : A -> B) (l : list A) :
  List.length (filter p (map f l)) = List.length (filter (fun a => p (f a)) l).
Proof.
  induction l as [|a l IH]; [reflexivity|].
  simpl. destruct (p (f a)); simpl; now rewrite IH.
Qed.

Lemma fold_min_spec (l : list Z) (x : Z) :
  In (fold_left Z.min l x) (x :: l)
  /\ forall y, In y (x :: l) -> fold_left Z.min l x <= y.
Proof.
  revert x. induction l as [|a l IH]; intros x.
  - simpl. split; [auto | intros y [<-|[]]; lia].
  - simpl fold_left. destruct (IH (Z.min x a)) as [Hin Hle]. split.
    + destruct Hin as [E|Hin].
      * rewrite <- E. destruct (Z.min_spec x a) as [[_ ->]|[_ ->]]; simpl; auto.
      * simpl. auto.
    + intros y [<-|[<-|Hy]].
      * specialize (Hle (Z.min x a) (or_introl eq_refl)). lia.
      * specialize (Hle (Z.min x a) (or_introl eq_refl)). lia.
      * apply Hle. simpl. auto.
Qed.

Lemma fold_max_spec (l : list Z) (x : Z) :
  In (fold_left Z.max l x) (x :: l)
  /\ forall y, In y (x :: l) -> y <= fold_left Z.max l x.
Proof.
  revert x. induction l as [|a l IH]; intros x.
  - simpl. split; [auto | intros y [<-|[]]; lia].
  - simpl fold_left. destruct (IH (Z.max x a)) as [Hin Hle]. split.
    + destruct Hin as [E|Hin].
      * rewrite <- E. destruct (Z.max_spec x a) as [[_ ->]|[_ ->]]; simpl; auto.
      * simpl. auto.
    + intros y [<-|[<-|Hy]].
      * specialize (Hle (Z.max x a) (or_introl eq_refl)). lia.
      * specialize (Hle (Z.max x a) (or_introl eq_refl)). lia.
      * apply Hle. simpl. auto.
Qed.

(** The samples of a crop that lies inside the image. *)
Lemma getdata_crop {A : Type} (fill : A) (i : Image A) (x0 x1 : Z) :
  0 <= x0 <= x1 -> x1 <= width i -> 0 <= height i ->
  exists c, crop fill i (x0, 0, x1, height i) = Ok c
            /\ width c = x1 - x0 /\ height c = height i
            /\ (forall x y, 0 <= x < x1 - x0 -> 0 <= y < height i ->
                  getpixel c x y = getpixel i (x + x0) y)
            /\ getdata c = band_samples i x0 x1.
Proof.
  intros Hx Hw Hh. unfold crop.
  replace (x1 <? x0) with false by lia.
  replace (height i <? 0) with false by lia.
  eexists. split; [reflexivity|]. split; [reflexivity|].
  split; [simpl; lia|].
  assert (Hpix : forall x y, 0 <= x < x1 - x0 -> 0 <= y < height i ->
            (if (0 <=? x + x0) && (x + x0 <? width i) && (0 <=? y + 0)
                && (y + 0 <? height i)
             then getpixel i (x + x0) (y + 0) else fill)
            = getpixel i (x + x0) y).
  { intros x y Hx' Hy.
    replace (0 <=? x + x0) with true by lia.
    replace (x + x0 <? width i) with true by lia.
    replace (0 <=? y + 0) with true by lia.
    replace (y + 0 <? height i) with true by lia.
    simpl. f_equal. lia. }
  split; [exact Hpix|].
  unfold getdata, band_samples, row. simpl.
  rewrite Z.sub_0_r. apply flat_map_ext_in. intros y Hy.
  apply range_In in Hy. rewrite map_map. apply map_ext_in.
  intros x Hx'. apply range_In in Hx'.
  rewrite Hpix by lia. f_equal. lia.
Qed.

Lemma band_samples_point {A B : Type} (f : A -> B) (i : Image A) (x0 x1 : Z) :
  band_samples (point f i) x0 x1 = map f (band_samples i x0 x1).
Proof.
  unfold band_samples. simpl.
  induction (Py.range (height i)) as [|y l IH]; [reflexivity|].
  simpl. rewrite map_app, IH. f_equal. now rewrite !map_map.
Qed.

(** The dark pixels the loop counts in a strip are the ink pixels of the
    page in the columns of the strip. *)
Lemma dark_pixels_ink (luma : rgb -> Z) (img : Image rgb) (x0 x1 : Z) :
  Py.len (filter (fun p => p =? 0) (band_samples (binary_of luma img) x0 x1))
  = ink_count luma img x0 x1.
Proof.
  unfold ink_count, Py.len, binary_of, convert_L. f_equal.
  rewrite !band_samples_point, map_map, filter_map_length.
  f_equal. apply filter_ext. intros p. unfold threshold_fn.
  destruct (luma p <? 240); reflexivity.
Qed.

Lemma strip_density_ok (luma : rgb -> Z) (img : Image rgb) (i : Z) :
  20 <= width img -> 0 < height img -> 0 <= i < 20 ->
  let strip_width := width img / 20 in
  strip_density img (binary_of luma img) strip_width i
  = Ok (Py.float_of_int
          (ink_count luma img (i * strip_width) ((i + 1) * strip_width))
        / Py.float_of_int (strip_width * height img))%float.
Proof.
  intros Hw Hh Hi strip_width.
  assert (Hsw : 0 < strip_width) by (apply Z.div_str_pos; lia).
  assert (Hcover : 20 * strip_width <= width img)
    by (apply Z.mul_div_le; lia).
  unfold strip_density, strip_bounds.
  destruct (getdata_crop 0 (binary_of luma img)
              (i * strip_width) ((i + 1) * strip_width))
    as (c & Hc & _ & _ & _ & Hdata); try (simpl; nia).
  change (height (binary_of luma img)) with (height img) in Hc.
  rewrite Hc. cbn [bind]. rewrite Hdata, dark_pixels_ink.
  unfold Py.truediv.
  replace (strip_width * height img =? 0) with false by nia.
  reflexivity.
Qed.

Lemma label_strips_of_map (d : Z -> float) (l : list Z) :
  label_strips_of (map (fun i => (i, d i)) l)
  = filter (fun i => (0.02 <? d i)%float) l.
Proof.
  unfold label_strips_of. induction l as [|i l IH]; [reflexivity|].
  simpl. destruct (0.02 <? d i)%float; simpl; now rewrite IH.
Qed.

Lemma strip_densities_ok (luma : rgb -> Z) (img : Image rgb) :
  20 <= width img -> 0 < height img ->
  let strip_width := width img / 20 in
  strip_densities_of img (binary_of luma img) strip_width
  = Ok (map (fun i =>
               (i, (Py.float_of_int
                      (ink_count luma img (i * strip_width) ((i + 1) * strip_width))
                    / Py.float_of_int (strip_width * height img))%float))
            (Py.range 20)).
Proof.
  intros Hw Hh strip_width. unfold strip_densities_of.
  apply mapM_ok. intros i Hi. apply range_In in Hi.
  unfold strip_width. now rewrite strip_density_ok.
Qed.

(** Every column left of [20 * strip_width] lies in one strip only. *)
Lemma strips_partition (strip_width x : Z) :
  0 <= x < 20 * strip_width ->
  exists i, In i (Py.range 20) /\ in_strip strip_width i x = true
            /\ forall j, In j (Py.range 20) ->
                 in_strip strip_width j x = true -> j = i.
Proof.
  intros Hx. assert (Hsw : 0 < strip_width) by lia.
  exists (x / strip_width).
  pose proof (Z.div_mod x strip_width) as Hdm.
  pose proof (Z.mod_pos_bound x strip_width Hsw) as Hmod.
  assert (Hq : 0 <= x / strip_width < 20).
  { split; [apply Z.div_pos; lia | apply Z.div_lt_upper_bound; lia]. }
  split; [apply range_In; exact Hq|]. split.
  - unfold in_strip, strip_bounds. apply andb_true_iff. split; [apply Z.leb_le | apply Z.ltb_lt]; nia.
  - intros j _ Hj. unfold in_strip, strip_bounds in Hj.
    apply andb_true_iff in Hj. destruct Hj as [Hl Hr].
    apply Z.leb_le in Hl. apply Z.ltb_lt in Hr.
    apply (Z.div_unique x strip_width j (x - j * strip_width)); lia.
Qed.

(** The rows of a band of the binary image that have a non-zero sample
    once inverted are the rows of the page with ink in the band. *)
Lemma band_ink (luma : rgb -> Z) (img : Image rgb) (c : Image Z) (x0 x1 : Z) :
  width c = x1 - x0 ->
  (forall x y, 0 <= x < x1 - x0 -> 0 <= y < height img ->
     getpixel c x y = getpixel (binary_of luma img) (x + x0) y) ->
  forall y, 0 <= y < height img ->
    (exists x, 0 <= x < width (invert c) /\ getpixel (invert c) x y <> 0)
    <-> (exists x, x0 <= x < x1 /\ luma (getpixel img x y) < 240).
Proof.
  intros Hcw Hpix y Hy.
  assert (Hsample : forall x, 0 <= x < x1 - x0 ->
            (getpixel (invert c) x y <> 0
             <-> luma (getpixel img (x + x0) y) < 240)).
  { intros x Hx.
    change (getpixel (invert c) x y) with (255 - getpixel c x y).
    rewrite Hpix by assumption.
    change (getpixel (binary_of luma img) (x + x0) y)
      with (threshold_fn (luma (getpixel img (x + x0) y))).
    unfold threshold_fn.
    destruct (Z.ltb_spec (luma (getpixel img (x + x0) y)) 240); lia. }
  change (width (invert c)) with (width c). rewrite Hcw. split.
  - intros (x & Hx & Hp). exists (x + x0). split; [lia|].
    apply Hsample; assumption.
  - intros (x & Hx & Hp). exists (x - x0). split; [lia|].
    apply Hsample; [lia|]. now replace (x - x0 + x0) with x by lia.
Qed.

(** A strip without ink is never selected. *)
Lemma zero_density_not_selected (y : float) :
  (0.02 <? Py.float_of_int 0 / y)%float = false.
Proof.
  rewrite ltb_spec, div_spec.
  change (Prim2SF (Py.float_of_int 0)) with (S754_zero false).
  destruct (Prim2SF y) as [s|s| |s m e]; try destruct s; reflexivity.
Qed.

(** An image with a non-zero sample has a bounding box. *)
Lemma getbbox_some (i : Image Z) (x y : Z) :
  0 <= x < width i -> 0 <= y < height i -> getpixel i x y <> 0 ->
  exists x0 y0 x1 y1, getbbox i = Some (x0, y0, x1, y1).
Proof.
  intros Hx Hy Hp. unfold getbbox.
  assert (Hink : negb (getpixel i x y =? 0) = true)
    by (apply negb_true_iff, Z.eqb_neq; exact Hp).
  destruct (filter _ (Py.range (width i))) as [|c cols] eqn:Ec.
  - exfalso. assert (Hin : In x []); [|destruct Hin].
    rewrite <- Ec. apply filter_In. split; [apply range_In; exact Hx|].
    apply existsb_exists. exists y.
    split; [apply range_In; exact Hy | exact Hink].
  - destruct (filter _ (Py.range (height i))) as [|r rows] eqn:Er.
    + exfalso. assert (Hin : In y []); [|destruct Hin].
      rewrite <- Er. apply filter_In. split; [apply range_In; exact Hy|].
      apply existsb_exists. exists x.
      split; [apply range_In; exact Hx | exact Hink].
    + eauto.
Qed.

(** A non-zero ink count comes from an ink pixel in those columns. *)
Lemma ink_count_pos (luma : rgb -> Z) (img : Image rgb) (x0 x1 : Z) :
  ink_count luma img x0 x1 <> 0 ->
  exists x y, x0 <= x < x1 /\ 0 <= y < height img
              /\ luma (getpixel img x y) < 240.
Proof.
  unfold ink_count, Py.len. intros H.
  destruct (filter _ (band_samples img x0 x1)) as [|p l] eqn:E;
    [simpl in H; lia|].
  assert (Hin : In p (filter (fun p => luma p <? 240) (band_samples img x0 x1)))
    by (rewrite E; simpl; auto).
  apply filter_In in Hin. destruct Hin as [Hin Hp].
  unfold band_samples in Hin. apply in_flat_map in Hin.
  destruct Hin as (y & Hy & Hin). apply range_In in Hy.
  apply in_map_iff in Hin. destruct Hin as (x & <- & Hx).
  apply in_map_iff in Hx. destruct Hx as (k & <- & Hk). apply range_In in Hk.
  exists (x0 + k), y. split; [lia|]. split; [exact Hy|].
  apply Z.ltb_lt. exact Hp.
Qed.

(** C9, against the claim: on a page 1726 pixels wide the strips are 86
    pixels wide, and column 1725 lies in none of the 20 strips. *)
Lemma strips_miss_last_columns :
  existsb (fun i => in_strip (1726 / 20) i 1725) (Py.range 20) = false.
Proof. vm_compute. reflexivity. Qed.

(** C9, as the code has it.  The refinement cuts the first
    [20 * (W / 20)] columns of the page into 20 strips of [W / 20]
    columns each; every one of these columns lies in exactly one strip,
    and the fewer than 20 columns that remain on the right lie in none.
    The density of a strip is its number of ink pixels over its area.
    The strips whose density is above 0.02 are selected; the smallest and
    the largest selected index give the horizontal bounds, widened by one
    strip width and clamped to the page; the ink rows of that band,
    widened by the same margin and clamped, give the vertical bounds.  When
    no strip is selected the refinement returns nothing and the detected
    box is used. *)
Theorem column_density_refinement (luma : rgb -> Z) (img : Image rgb) :
  20 <= width img -> 0 < height img ->
  let strip_width := width img / 20 in
  let binary := binary_of luma img in
  let density := fun i =>
    (Py.float_of_int (ink_count luma img (i * strip_width) ((i + 1) * strip_width))
     / Py.float_of_int (strip_width * height img))%float in
  let label_strips := filter (fun i => (0.02 <? density i)%float) (Py.range 20) in
  20 * strip_width <= width img < 20 * strip_width + 20
  /\ (forall x, 0 <= x < 20 * strip_width ->
        exists i, In i (Py.range 20) /\ in_strip strip_width i x = true
                  /\ forall j, In j (Py.range 20) ->
                       in_strip strip_width j x = true -> j = i)
  /\ (forall x, 20 * strip_width <= x ->
        forall i, In i (Py.range 20) -> in_strip strip_width i x = false)
  /\ strip_densities_of img binary strip_width
     = Ok (map (fun i => (i, density i)) (Py.range 20))
  /\ (label_strips = [] ->
      column_density img binary = Ok None
      /\ forall bbox, final_bbox img binary bbox = Ok bbox)
  /\ (label_strips <> [] ->
      exists left_strip right_strip cropped_region,
        In left_strip label_strips /\ In right_strip label_strips
        /\ (forall i, In i label_strips -> left_strip <= i <= right_strip)
        /\ let left := Z.max 0 (left_strip * strip_width - strip_width) in
           let right :=
             Z.min (width img) ((right_strip + 1) * strip_width + strip_width) in
           0 <= left < right /\ right <= width img
           /\ crop 0 binary (left, 0, right, height img) = Ok cropped_region
           /\ width cropped_region = right - left
           /\ height cropped_region = height img
           /\ (forall x y, 0 <= x < right - left -> 0 <= y < height img ->
                 getpixel cropped_region x y = getpixel binary (x + left) y)
           /\ exists r0 r1 r2 r3,
                getbbox (invert cropped_region) = Some (r0, r1, r2, r3)
                /\ column_density img binary
                   = Ok (Some (left, Z.max 0 (r1 - strip_width),
                               right, Z.min (height img) (r3 + strip_width)))
                /\ let ink_row y :=
                     exists x, left <= x < right
                               /\ luma (getpixel img x y) < 240 in
                   ink_row r1 /\ ink_row (r3 - 1)
                   /\ forall y, 0 <= y < height img -> ink_row y ->
                        r1 <= y < r3).
Proof.
  intros Hw Hh strip_width binary density label_strips.
  assert (Hsw : 0 < strip_width) by (apply Z.div_str_pos; lia).
  assert (Hcover : 20 * strip_width <= width img < 20 * strip_width + 20).
  { unfold strip_width. pose proof (Z.div_mod (width img) 20).
    pose proof (Z.mod_pos_bound (width img) 20). lia. }
  assert (Hdens : strip_densities_of img binary strip_width
                  = Ok (map (fun i => (i, density i)) (Py.range 20)))
    by (apply strip_densities_ok; assumption).
  assert (Hcd : column_density img binary
    = match label_strips with
      | [] => Ok None
      | _ :: _ =>
          left_strip <- Py.min_list label_strips ;;
          right_strip <- Py.max_list label_strips ;;
          let left := Z.max 0 (left_strip * strip_width - strip_width) in
          let right :=
            Z.min (width img) ((right_strip + 1) * strip_width + strip_width) in
          cropped_region <- crop 0 binary (left, 0, right, height img) ;;
          match getbbox (invert cropped_region) with
          | Some (_, r1, _, r3) =>
              Ok (Some (left, Z.max 0 (r1 - strip_width),
                        right, Z.min (height img) (r3 + strip_width)))
          | None => Ok None
          end
      end).
  { unfold column_density. fold strip_width. rewrite Hdens. cbn [bind].
    rewrite label_strips_of_map. fold label_strips.
    destruct label_strips; [reflexivity|].
    repeat (apply f_equal). reflexivity. }
  split; [exact Hcover|]. split; [intros x Hx; now apply strips_partition|].
  split.
  { intros x Hx i Hi. apply range_In in Hi. unfold in_strip, strip_bounds.
    apply andb_false_iff. right. apply Z.ltb_ge. nia. }
  split; [exact Hdens|]. split.
  - intros Hnil. rewrite Hnil in Hcd. split; [exact Hcd|].
    intros bbox. unfold final_bbox.
    destruct (bbox_covers_page img bbox); [|reflexivity].
    fold binary. now rewrite Hcd.
  - intros Hne. destruct label_strips as [|a l] eqn:El; [congruence|].
    rewrite <- El in *.
    assert (Hrange : forall i, In i label_strips -> 0 <= i < 20).
    { intros i Hi. unfold label_strips in Hi. apply filter_In in Hi.
      apply range_In. tauto. }
    rewrite El in Hcd. cbn [Py.min_list Py.max_list bind] in Hcd.
    destruct (fold_min_spec l a) as [Hmin_in Hmin_le].
    destruct (fold_max_spec l a) as [Hmax_in Hmax_le].
    rewrite <- El in Hmin_in, Hmin_le, Hmax_in, Hmax_le.
    set (left_strip := fold_left Z.min l a) in *.
    set (right_strip := fold_left Z.max l a) in *.
    pose proof (Hrange _ Hmin_in) as Hl.
    pose proof (Hrange _ Hmax_in) as Hr.
    pose proof (Hmin_le _ Hmax_in) as Hlr.
    destruct (getdata_crop 0 binary
                (Z.max 0 (left_strip * strip_width - strip_width))
                (Z.min (width img) ((right_strip + 1) * strip_width + strip_width)))
      as (c & Hc & Hcw & Hch & Hpix & _); try (simpl; nia).
    change (height binary) with (height img) in *.
    exists left_strip, right_strip, c.
    split; [exact Hmin_in|]. split; [exact Hmax_in|].
    split; [intros i Hi; split; [apply Hmin_le | apply Hmax_le]; exact Hi|].
    cbv zeta. split; [nia|]. split; [lia|]. split; [exact Hc|].
    split; [exact Hcw|]. split; [exact Hch|]. split; [exact Hpix|].
    pose proof (band_ink luma img c _ _ Hcw Hpix) as Hband.
    assert (Hsome : exists r0 r1 r2 r3,
              getbbox (invert c) = Some (r0, r1, r2, r3)).
    { assert (Hsel : (0.02 <? density left_strip)%float = true).
      { unfold label_strips in Hmin_in. apply filter_In in Hmin_in. tauto. }
      destruct (ink_count_pos luma img (left_strip * strip_width)
                  ((left_strip + 1) * strip_width)) as (x & y & Hx & Hy & Hp).
      { intros E0. unfold density in Hsel. rewrite E0 in Hsel.
        rewrite zero_density_not_selected in Hsel. discriminate Hsel. }
      destruct (proj2 (Hband y Hy)) as (x' & Hx' & Hp').
      { exists x. split; [nia | exact Hp]. }
      apply (getbbox_some (invert c) x' y); [exact Hx'| |exact Hp'].
      change (height (invert c)) with (height c). rewrite Hch. exact Hy. }
    destruct Hsome as (r0 & r1 & r2 & r3 & Hg).
    exists r0, r1, r2, r3. split; [exact Hg|]. split.
    + rewrite Hcd. cbv zeta. rewrite Hc. cbn [bind]. rewrite Hg. reflexivity.
    + destruct (getbbox_rows _ _ _ _ _ Hg) as (Hr01 & Hr3 & Hi1 & Hi3 & Hall).
      change (height (invert c)) with (height c) in *. rewrite Hch in *.
      split; [apply Hband; [lia | exact Hi1]|].
      split; [apply Hband; [lia | exact Hi3]|].
      intros y Hy Hink. apply Hall; [exact Hy|].
      apply Hband; assumption.
Qed.

Lemma column_density_refinement_witness :
  strip_densities_of demo_page (binary_of luma_601 demo_page) (width demo_page / 20)
  = Ok (map (fun i =>
          (i, (Py.float_of_int
                 (ink_count luma_601 demo_page (i * (width demo_page / 20))
                    ((i + 1) * (width demo_page / 20)))
               / Py.float_of_int (width demo_page / 20 * height demo_page))%float))
          (Py.range 20)).
Proof.
  assert (Hw : 20 <= width demo_page) by (simpl; lia).
  assert (Hh : 0 < height demo_page) by (simpl; lia).
  exact (proj1 (proj2 (proj2 (proj2
           (column_density_refinement luma_601 demo_page Hw Hh))))).
Defined.

(** ** Further properties of the encoder *)

Lemma sequence_map_some {A B : Type} (f : A -> option B) (g : A -> B) (l : list A) :
  (forall a, In a l -> f a = Some (g a)) ->
  sequence (map f l) = Some (map g l).
Proof.
  induction l as [|a l IH]; intros H; [reflexivity|].
  cbn [map sequence]. rewrite H by (simpl; auto).
  rewrite IH by (intros b Hb; apply H; simpl; auto). reflexivity.
Qed.

(** X1.  For an image of positive width the byte count in the [^GFA]
    header is the length of the packed data, and the hex body is a
    transcript of that data: one row per image row, and the rows, read
    back from hex and put end to end, are the packed bytes. *)
Theorem header_counts_body (luma : rgb -> Z) (s : Settings) (pil_image : PILImage) :
  let img := to_black_and_white luma (threshold s) pil_image in
  let hex_rows :=
    map (fun y => Py.hex_of_bytes (row_bytes img y)) (Py.range (height img)) in
  0 < width img -> 0 <= height img ->
  print_image luma s pil_image
  = Ok (zpl_text s (Py.len (tobytes img)) (bytes_per_row_of (width img))
          (Py.join Py.NL hex_rows))
  /\ List.length hex_rows = Z.to_nat (height img)
  /\ exists rows,
       sequence (map unhex hex_rows) = Some rows
       /\ List.concat rows = tobytes img.
Proof.
  intros img hex_rows Hw Hh. split; [|split].
  - rewrite print_image_rows by exact Hw. fold img.
    rewrite tobytes_len.
    pose proof (bytes_per_row_pos _ Hw).
    rewrite !Z2Nat.id by lia. now rewrite Z.mul_comm.
  - unfold hex_rows. now rewrite length_map, range_length.
  - exists (map (row_bytes img) (Py.range (height img))). split.
    + unfold hex_rows. rewrite map_map. apply sequence_map_some.
      intros y _. apply unhex_hex_of_bytes, row_bytes_range.
    + unfold tobytes. now rewrite flat_map_concat_map.
Qed.

Lemma header_counts_body_witness :
  print_image luma_601 demo_settings (Mode1 (img_of_rows 0 10 demo_rows))
  = Ok (zpl_text demo_settings 4 2 (Py.join Py.NL ["0F00"; "AA80"]%string)).
Proof.
  assert (Hw : 0 < width (to_black_and_white luma_601 (threshold demo_settings)
                            (Mode1 (img_of_rows 0 10 demo_rows))))
    by (vm_compute; reflexivity).
  assert (Hh : 0 <= height (to_black_and_white luma_601 (threshold demo_settings)
                              (Mode1 (img_of_rows 0 10 demo_rows))))
    by (vm_compute; discriminate).
  rewrite (proj1 (header_counts_body luma_601 demo_settings
                    (Mode1 (img_of_rows 0 10 demo_rows)) Hw Hh)).
  vm_compute. reflexivity.
Defined.

(** X2.  Raising the threshold never clears a bit: a pixel printed at
    one threshold is printed at every higher one, whatever the mode of
    the image. *)
Theorem threshold_monotone (luma : rgb -> Z) (t1 t2 : Z) (pil_image : PILImage)
  (x y : Z) :
  t1 <= t2 ->
  bit (to_black_and_white luma t1 pil_image) x y = true ->
  bit (to_black_and_white luma t2 pil_image) x y = true.
Proof.
  intros Ht. destruct pil_image as [i|i|i]; unfold bit; simpl; [tauto| |].
  - rewrite !andb_true_iff. intros [Hx Hp]. split; [exact Hx|].
    destruct (Z.geb_spec (getpixel i x y) t1) as [H1|H1]; [discriminate Hp|].
    replace (getpixel i x y >=? t2) with false by lia. reflexivity.
  - rewrite !andb_true_iff. intros [Hx Hp]. split; [exact Hx|].
    destruct (Z.geb_spec (luma (getpixel i x y)) t1) as [H1|H1];
      [discriminate Hp|].
    replace (luma (getpixel i x y) >=? t2) with false by lia. reflexivity.
Qed.

Lemma threshold_monotone_witness :
  bit (to_black_and_white luma_601 200 (ModeL (img_of_rows 0 10 demo_rows))) 0 0
  = true.
Proof.
  apply (threshold_monotone luma_601 128 200
           (ModeL (img_of_rows 0 10 demo_rows)) 0 0).
  - lia.
  - reflexivity.
Defined.

Lemma byte_of_zero_bits (f : Z -> bool) :
  (forall k, 0 <= k < 8 -> f k = false) ->
  byte_of_bits (map f (Py.range 8)) = 0.
Proof.
  intros H. change (Py.range 8) with [0; 1; 2; 3; 4; 5; 6; 7].
  cbn [map]. rewrite !H by lia. reflexivity.
Qed.

(** X3.  The two ends of the threshold scale, for a grey image with
    samples from 0 to 255: at a threshold of 0 (or below) every packed
    byte is zero, so the label prints blank; at a threshold above 255
    every pixel of the image gets a set bit. *)
Theorem threshold_extremes (luma : rgb -> Z) (t : Z) (i : Image Z) :
  (forall x y, 0 <= x < width i -> 0 <= y < height i ->
               0 <= getpixel i x y <= 255) ->
  (t <= 0 ->
   forall y, 0 <= y < height i ->
     row_bytes (to_black_and_white luma t (ModeL i)) y
     = repeat 0 (Z.to_nat (bytes_per_row_of (width i))))
  /\ (255 < t ->
      forall x y, 0 <= x < width i -> 0 <= y < height i ->
        bit (to_black_and_white luma t (ModeL i)) x y = true).
Proof.
  intros Hs. split.
  - intros Ht y Hy. unfold row_bytes.
    change (width (to_black_and_white luma t (ModeL i))) with (width i).
    change ((width i + 7) / 8) with (bytes_per_row_of (width i)).
    replace (Z.to_nat (bytes_per_row_of (width i)))
      with (List.length (Py.range (bytes_per_row_of (width i))))
      by apply range_length.
    apply map_const_repeat. intros j Hj. apply range_In in Hj.
    apply (byte_of_zero_bits (fun k =>
             bit (to_black_and_white luma t (ModeL i)) (8 * j + k) y)).
    intros k Hk. unfold bit.
    cbn [to_black_and_white point width getpixel].
    destruct (Z.ltb_spec (8 * j + k) (width i)) as [Hlt|]; [|reflexivity].
    assert (Hx : 0 <= 8 * j + k < width i) by lia.
    specialize (Hs (8 * j + k) y Hx Hy).
    replace (getpixel i (8 * j + k) y >=? t) with true by lia. reflexivity.
  - intros Ht x y Hx Hy. unfold bit. simpl.
    specialize (Hs x y Hx Hy).
    replace (x <? width i) with true by lia.
    replace (getpixel i x y >=? t) with false by lia. reflexivity.
Qed.

Lemma threshold_extremes_witness :
  row_bytes (to_black_and_white luma_601 0 (ModeL (img_of_rows 0 10 demo_rows))) 1
  = [0; 0].
Proof.
  assert (Hs : forall x y,
             0 <= x < width (img_of_rows 0 10 demo_rows) ->
             0 <= y < height (img_of_rows 0 10 demo_rows) ->
             0 <= getpixel (img_of_rows 0 10 demo_rows) x y <= 255).
  { intros x y Hx Hy.
    change (width (img_of_rows 0 10 demo_rows)) with 10 in Hx.
    change (height (img_of_rows 0 10 demo_rows)) with 2 in Hy.
    assert (Hxi : In x (Py.range 10)) by (apply range_In; lia).
    assert (Hyi : In y (Py.range 2)) by (apply range_In; lia).
    vm_compute in Hxi, Hyi.
    repeat (destruct Hyi as [<-|Hyi]; [|]); try contradiction;
      repeat (destruct Hxi as [<-|Hxi]; [vm_compute; split; discriminate|]);
      contradiction. }
  apply (proj1 (threshold_extremes luma_601 0 (img_of_rows 0 10 demo_rows) Hs)).
  - lia.
  - change (height (img_of_rows 0 10 demo_rows)) with 2. lia.
Defined.

Lemma Ok_inj {A : Type} (a b : A) : Ok a = Ok b -> a = b.
Proof. intros H. now injection H. Qed.

Lemma append_inv_head (p a b : string) :
  (p ++ a)%string = (p ++ b)%string -> a = b.
Proof.
  induction p as [|c p IH]; simpl; intros H; [exact H|].
  injection H as H. now apply IH.
Qed.

Lemma length_append (a b : string) :
  String.length (a ++ b) = (String.length a + String.length b)%nat.
Proof. induction a as [|c a IH]; simpl; [reflexivity | now rewrite IH]. Qed.

Lemma append_inv_tail (a b c : string) :
  (a ++ c)%string = (b ++ c)%string -> a = b.
Proof.
  intros H.
  assert (Hlen : String.length a = String.length b).
  { apply (f_equal String.length) in H.
    rewrite !length_append in H. lia. }
  revert b H Hlen. induction a as [|x a IH]; intros [|y b] H Hlen;
    simpl in Hlen; try discriminate; [reflexivity|].
  simpl in H. injection H as -> H. f_equal. apply IH; [exact H | lia].
Qed.

Lemma map_eq_pointwise {A B : Type} (f g : A -> B) (l : list A) :
  map f l = map g l -> forall a, In a l -> f a = g a.
Proof.
  induction l as [|b l IH]; intros H a Ha; [destruct Ha|].
  simpl in H. injection H as Hb Hl.
  destruct Ha as [<-|Ha]; [exact Hb | now apply IH].
Qed.

(** X4.  The encoding loses nothing: two images of the same size that
    give the same ZPL text under the same settings have the same bit at
    every pixel. *)
Theorem print_image_injective (luma : rgb -> Z) (s : Settings)
  (p1 p2 : PILImage) :
  let i1 := to_black_and_white luma (threshold s) p1 in
  let i2 := to_black_and_white luma (threshold s) p2 in
  width i1 = width i2 -> height i1 = height i2 -> 0 < width i1 ->
  print_image luma s p1 = print_image luma s p2 ->
  forall x y, 0 <= x < width i1 -> 0 <= y < height i1 ->
    bit i1 x y = bit i2 x y.
Proof.
  intros i1 i2 Ew Eh Hw Hprint x y Hx Hy.
  assert (Hw2 : 0 < width i2) by lia.
  rewrite !print_image_rows in Hprint by assumption.
  fold i1 i2 in Hprint. rewrite <- Ew, <- Eh in Hprint.
  apply Ok_inj in Hprint. unfold zpl_text in Hprint.
  repeat (apply append_inv_head in Hprint).
  apply append_inv_tail in Hprint.
  assert (Hdec : Some (map (padded_row_bits i1) (Py.range (height i1)))
                 = Some (map (padded_row_bits i2) (Py.range (height i1)))).
  { rewrite <- (decode_hex_body i1) by lia. rewrite Hprint.
    rewrite Eh. rewrite decode_hex_body by lia. reflexivity. }
  injection Hdec as Hdec.
  pose proof (map_eq_pointwise _ _ _ Hdec y (proj2 (range_In _ _) Hy)) as Hrow.
  unfold padded_row_bits in Hrow. rewrite <- Ew in Hrow.
  apply app_inv_tail in Hrow.
  pose proof (map_eq_pointwise _ _ _ Hrow x (proj2 (range_In _ _) Hx)) as Hpix.
  unfold bit. rewrite <- Ew. cbv beta in Hpix. now rewrite Hpix.
Qed.

Lemma print_image_injective_witness :
  bit (to_black_and_white luma_601 128 (Mode1 (img_of_rows 0 10 demo_rows))) 4 0
  = bit (to_black_and_white luma_601 128
           (Mode1 (img_of_rows 7 10 demo_rows))) 4 0.
Proof.
  apply (print_image_injective luma_601 demo_settings
           (Mode1 (img_of_rows 0 10 demo_rows))
           (Mode1 (img_of_rows 7 10 demo_rows))).
  - reflexivity.
  - reflexivity.
  - simpl. lia.
  - vm_compute. reflexivity.
  - simpl. lia.
  - change (height (to_black_and_white luma_601 (threshold demo_settings)
                      (Mode1 (img_of_rows 0 10 demo_rows)))) with 2. lia.
Defined.

(** ** Further properties of the label recovery *)

(** X5.  The page test does not depend on the orientation of the page:
    a page and the page turned by a quarter turn are classified alike. *)
Theorem is_letter_size_transpose (w h : float) :
  is_letter_size w h = is_letter_size h w.
Proof.
  unfold is_letter_size.
  destruct (7.5 <? w)%float, (w <? 9.5)%float, (10 <? h)%float, (h <? 12)%float,
           (10 <? w)%float, (w <? 12)%float, (7.5 <? h)%float, (h <? 9.5)%float;
    reflexivity.
Qed.

Lemma above_one_above_half (a : float) :
  (1.0 <? a)%float = true -> (0.5 <? a)%float = true.
Proof.
  rewrite !ltb_spec.
  change (Prim2SF 1.0) with (S754_finite false 4503599627370496 (-52)).
  change (Prim2SF 0.5) with (S754_finite false 4503599627370496 (-53)).
  destruct (Prim2SF a) as [s|s| |s m e].
  - destruct s; vm_compute; congruence.
  - destruct s; vm_compute; congruence.
  - vm_compute; congruence.
  - unfold SFltb, SFcompare. destruct s; [discriminate|].
    destruct (Z.compare_spec (-52) e) as [E|E|E];
      destruct (Z.compare_spec (-53) e) as [E'|E'|E']; try lia;
      try discriminate; reflexivity.
Qed.

(** X6.  A crop that is at most half as wide as it is tall is never
    rotated, whatever the content height: the rule fires only for an
    aspect ratio above 0.5.  And a content box that spans the page height
    can only add rotations, never remove one. *)
Theorem rotation_needs_wide_crop (aspect_ratio : float) (spans : bool) :
  (needs_rotation aspect_ratio spans = true -> flt 0.5 aspect_ratio)
  /\ (needs_rotation aspect_ratio false = true ->
      needs_rotation aspect_ratio true = true).
Proof.
  unfold needs_rotation, flt. split.
  - destruct (1.0 <? aspect_ratio)%float eqn:E1.
    + intros _. now apply above_one_above_half.
    + destruct spans, (0.5 <? aspect_ratio)%float; simpl; congruence.
  - destruct (1.0 <? aspect_ratio)%float; simpl; [reflexivity | discriminate].
Qed.

(** What the bounding box says about the columns. *)
Lemma getbbox_cols (i : Image Z) (x0 y0 x1 y1 : Z) :
  getbbox i = Some (x0, y0, x1, y1) ->
  let inked x := exists y, 0 <= y < height i /\ getpixel i x y <> 0 in
  0 <= x0 < x1 /\ x1 <= width i
  /\ inked x0 /\ inked (x1 - 1)
  /\ forall x, 0 <= x < width i -> inked x -> x0 <= x < x1.
Proof.
  intros E inked. unfold getbbox in E.
  set (f := fun x => existsb (fun y => negb (getpixel i x y =? 0))
                             (Py.range (height i))) in E.
  destruct (filter f (Py.range (width i))) as [|c cols] eqn:Ec; [discriminate|].
  destruct (filter _ (Py.range (height i))) as [|r rows]; [discriminate|].
  injection E as <- <- <- <-.
  destruct (filter_range_bounds f _ _ _ Ec) as ((Hc & Hfc) & (Hl & Hfl) & Hall).
  assert (Hink : forall x, f x = true <-> inked x).
  { intros x. unfold f, inked. rewrite existsb_exists. split.
    - intros (y & Hy & Hp). exists y. apply range_In in Hy.
      split; [exact Hy|]. apply negb_true_iff, Z.eqb_neq in Hp. exact Hp.
    - intros (y & Hy & Hp). exists y. split; [apply range_In; exact Hy|].
      apply negb_true_iff, Z.eqb_neq. exact Hp. }
  pose proof (Hall c Hc Hfc) as Hcl.
  split; [lia|]. split; [lia|]. split; [apply Hink; exact Hfc|].
  split; [replace (last cols c + 1 - 1) with (last cols c) by lia;
          apply Hink; exact Hfl|].
  intros x Hx Hi. apply Hink in Hi. specialize (Hall x Hx Hi). lia.
Qed.

Lemma inverted_binary_ink (luma : rgb -> Z) (img : Image rgb) (x y : Z) :
  getpixel (invert (binary_of luma img)) x y <> 0
  <-> luma (getpixel img x y) < 240.
Proof.
  change (getpixel (invert (binary_of luma img)) x y)
    with (255 - threshold_fn (luma (getpixel img x y))).
  unfold threshold_fn.
  destruct (Z.ltb_spec (luma (getpixel img x y)) 240); lia.
Qed.

(** X7.  The content box that the detector finds on a page is the tight
    box of its ink (grey sample below 240): it lies within the page, it is
    not empty, every ink pixel lies inside it, and each of its four sides
    touches an ink pixel. *)
Theorem content_bbox_tight (luma : rgb -> Z) (img : Image rgb) (b0 b1 b2 b3 : Z) :
  getbbox (invert (binary_of luma img)) = Some (b0, b1, b2, b3) ->
  let ink x y :=
    0 <= x < width img /\ 0 <= y < height img
    /\ luma (getpixel img x y) < 240 in
  0 <= b0 < b2 /\ b2 <= width img /\ 0 <= b1 < b3 /\ b3 <= height img
  /\ (forall x y, ink x y -> b0 <= x < b2 /\ b1 <= y < b3)
  /\ (exists y, ink b0 y) /\ (exists y, ink (b2 - 1) y)
  /\ (exists x, ink x b1) /\ (exists x, ink x (b3 - 1)).
Proof.
  intros E ink.
  destruct (getbbox_cols _ _ _ _ _ E) as (Hx0 & Hx1 & Hc0 & Hc1 & Hcols).
  destruct (getbbox_rows _ _ _ _ _ E) as (Hy0 & Hy1 & Hr0 & Hr1 & Hrows).
  change (width (invert (binary_of luma img))) with (width img) in *.
  change (height (invert (binary_of luma img))) with (height img) in *.
  split; [exact Hx0|]. split; [exact Hx1|]. split; [exact Hy0|].
  split; [exact Hy1|]. split.
  - intros x y (Hx & Hy & Hp). apply inverted_binary_ink in Hp. split.
    + apply Hcols; [exact Hx|]. exists y. split; assumption.
    + apply Hrows; [exact Hy|]. exists x. split; assumption.
  - split; [|split; [|split]].
    + destruct Hc0 as (y & Hy & Hp). exists y. unfold ink.
      apply inverted_binary_ink in Hp. repeat split; try lia; exact Hp.
    + destruct Hc1 as (y & Hy & Hp). exists y. unfold ink.
      apply inverted_binary_ink in Hp. repeat split; try lia; exact Hp.
    + destruct Hr0 as (x & Hx & Hp). exists x. unfold ink.
      apply inverted_binary_ink in Hp. repeat split; try lia; exact Hp.
    + destruct Hr1 as (x & Hx & Hp). exists x. unfold ink.
      apply inverted_binary_ink in Hp. repeat split; try lia; exact Hp.
Qed.

Lemma content_bbox_tight_witness :
  0 <= 10 < 26 /\ 26 <= width demo_page_plain
  /\ 0 <= 5 < 45 /\ 45 <= height demo_page_plain.
Proof.
  assert (Hb : getbbox (invert (binary_of luma_601 demo_page_plain))
               = Some (10, 5, 26, 45)) by (vm_compute; reflexivity).
  destruct (content_bbox_tight luma_601 demo_page_plain 10 5 26 45 Hb)
    as (H1 & H2 & H3 & H4 & _).
  exact (conj H1 (conj H2 (conj H3 H4))).
Defined.

(** X8.  When the column-density refinement returns a box, the box lies
    within the page and is not empty, every ink pixel in its columns lies
    between its top and bottom, and every ink pixel of every selected
    strip lies inside it: the refinement never cuts into the ink it
    selected. *)
Theorem refined_box_keeps_ink (luma : rgb -> Z) (img : Image rgb)
  (l t r b : Z) :
  20 <= width img -> 0 < height img ->
  column_density img (binary_of luma img) = Ok (Some (l, t, r, b)) ->
  let strip_width := width img / 20 in
  let density := fun i =>
    (Py.float_of_int (ink_count luma img (i * strip_width) ((i + 1) * strip_width))
     / Py.float_of_int (strip_width * height img))%float in
  0 <= l < r /\ r <= width img /\ 0 <= t < b /\ b <= height img
  /\ (forall x y, l <= x < r -> 0 <= y < height img ->
        luma (getpixel img x y) < 240 -> t <= y < b)
  /\ (forall i x y, 0 <= i < 20 -> flt 0.02 (density i) ->
        i * strip_width <= x < (i + 1) * strip_width ->
        0 <= y < height img -> luma (getpixel img x y) < 240 ->
        l <= x < r /\ t <= y < b).
Proof.
  intros Hw Hh Hres strip_width density.
  set (binary := binary_of luma img) in *.
  set (label_strips := filter (fun i => (0.02 <? density i)%float) (Py.range 20)).
  move Hres at bottom.
  assert (Hsw : 0 < strip_width) by (apply Z.div_str_pos; lia).
  assert (Hcover : 20 * strip_width <= width img)
    by (apply Z.mul_div_le; lia).
  assert (Hcd : column_density img binary
    = match label_strips with
      | [] => Ok None
      | _ :: _ =>
          left_strip <- Py.min_list label_strips ;;
          right_strip <- Py.max_list label_strips ;;
          let left := Z.max 0 (left_strip * strip_width - strip_width) in
          let right :=
            Z.min (width img) ((right_strip + 1) * strip_width + strip_width) in
          cropped_region <- crop 0 binary (left, 0, right, height img) ;;
          match getbbox (invert cropped_region) with
          | Some (_, r1, _, r3) =>
              Ok (Some (left, Z.max 0 (r1 - strip_width),
                        right, Z.min (height img) (r3 + strip_width)))
          | None => Ok None
          end
      end).
  { assert (Hdens : strip_densities_of img binary strip_width
                    = Ok (map (fun i => (i, density i)) (Py.range 20)))
      by (apply strip_densities_ok; assumption).
    unfold column_density. fold strip_width. rewrite Hdens. cbn [bind].
    rewrite label_strips_of_map. fold label_strips.
    destruct label_strips; [reflexivity|].
    repeat (apply f_equal). reflexivity. }
  rewrite Hcd in Hres. clear Hcd.
  destruct label_strips as [|a rest] eqn:El; [discriminate Hres|].
  rewrite <- El in *.
  assert (Hrange : forall i, In i label_strips -> 0 <= i < 20).
  { intros i Hi. unfold label_strips in Hi. apply filter_In in Hi.
    apply range_In. tauto. }
  rewrite El in Hres. cbn [Py.min_list Py.max_list bind] in Hres.
  destruct (fold_min_spec rest a) as [Hmin_in Hmin_le].
  destruct (fold_max_spec rest a) as [Hmax_in Hmax_le].
  rewrite <- El in Hmin_in, Hmin_le, Hmax_in, Hmax_le.
  set (left_strip := fold_left Z.min rest a) in *.
  set (right_strip := fold_left Z.max rest a) in *.
  pose proof (Hrange _ Hmin_in) as Hl.
  pose proof (Hrange _ Hmax_in) as Hr.
  pose proof (Hmin_le _ Hmax_in) as Hlr.
  destruct (getdata_crop 0 binary
              (Z.max 0 (left_strip * strip_width - strip_width))
              (Z.min (width img) ((right_strip + 1) * strip_width + strip_width)))
    as (c & Hc & Hcw & Hch & Hpix & _); try (simpl; nia).
  change (height binary) with (height img) in *.
  cbv zeta in Hres. rewrite Hc in Hres. cbn [bind] in Hres.
  pose proof (band_ink luma img c _ _ Hcw Hpix) as Hband.
  destruct (getbbox (invert c)) as [[[[r0 r1] r2] r3]|] eqn:Hg;
    [|discriminate Hres].
  injection Hres as <- <- <- <-.
  destruct (getbbox_rows _ _ _ _ _ Hg) as (Hr01 & Hr3 & _ & _ & Hall).
  change (height (invert c)) with (height c) in *. rewrite Hch in *.
  assert (Hrows : forall x y,
            Z.max 0 (left_strip * strip_width - strip_width) <= x
              < Z.min (width img) ((right_strip + 1) * strip_width + strip_width) ->
            0 <= y < height img -> luma (getpixel img x y) < 240 ->
            r1 <= y < r3).
  { intros x y Hx Hy Hp. apply Hall; [exact Hy|].
    apply Hband; [exact Hy|]. exists x. split; assumption. }
  split; [nia|]. split; [lia|]. split; [lia|]. split; [lia|]. split.
  - intros x y Hx Hy Hp. specialize (Hrows x y Hx Hy Hp). lia.
  - intros i x y Hi Hsel Hx Hy Hp.
    assert (Hin : In i label_strips).
    { unfold label_strips. apply filter_In. split; [apply range_In; exact Hi|].
      exact Hsel. }
    pose proof (Hmin_le _ Hin). pose proof (Hmax_le _ Hin).
    assert (Hxb : Z.max 0 (left_strip * strip_width - strip_width) <= x
                  < Z.min (width img)
                      ((right_strip + 1) * strip_width + strip_width)) by nia.
    specialize (Hrows x y Hxb Hy Hp). lia.
Qed.

Lemma refined_box_keeps_ink_witness :
  0 <= 8 < 28 /\ 28 <= width demo_page /\ 0 <= 3 < 47 /\ 47 <= height demo_page.
Proof.
  assert (Hw : 20 <= width demo_page) by (simpl; lia).
  assert (Hh : 0 < height demo_page) by (simpl; lia).
  assert (Hr : column_density demo_page (binary_of luma_601 demo_page)
               = Ok (Some (8, 3, 28, 47))) by (vm_compute; reflexivity).
  destruct (refined_box_keeps_ink luma_601 demo_page 8 3 28 47 Hw Hh Hr)
    as (H1 & H2 & H3 & H4 & _).
  exact (conj H1 (conj H2 (conj H3 H4))).
Defined.

(** X9.  On a page less than 20 pixels wide the strips have no width,
    the density of the first strip is a division by zero, and the
    refinement raises [ZeroDivisionError]; so does the search for the
    content box whenever the detected box covers the page. *)
Theorem narrow_page_raises (luma : rgb -> Z) (img : Image rgb) :
  0 <= width img < 20 -> 0 <= height img ->
  column_density img (binary_of luma img) = Raise ZeroDivisionError
  /\ forall bbox, bbox_covers_page img bbox = true ->
       final_bbox img (binary_of luma img) bbox = Raise ZeroDivisionError.
Proof.
  intros Hw Hh.
  assert (Hcd : column_density img (binary_of luma img) = Raise ZeroDivisionError).
  { unfold column_density, strip_densities_of.
    rewrite (Z.div_small (width img) 20) by lia.
    replace (Py.range 20) with (0 :: map (fun k => 1 + k) (Py.range 19))
      by reflexivity.
    cbn [mapM]. unfold strip_density at 1, strip_bounds, crop.
    replace (0 * 0 <? (0 + 1) * 0) with false by reflexivity.
    replace ((0 + 1) * 0 <? 0 * 0) with false by reflexivity.
    replace (height img <? 0) with false by lia.
    cbn [bind]. unfold Py.truediv.
    replace (0 * height img =? 0) with true by lia. reflexivity. }
  split; [exact Hcd|].
  intros bbox Hc. unfold final_bbox. now rewrite Hc, Hcd.
Qed.

Lemma narrow_page_raises_witness :
  column_density tiny_page (binary_of luma_601 tiny_page)
  = Raise ZeroDivisionError.
Proof.
  apply (proj1 (narrow_page_raises luma_601 tiny_page
                  ltac:(simpl; lia) ltac:(simpl; lia))).
Defined.

Lemma ink_count_ext (luma : rgb -> Z) (img1 img2 : Image rgb) (x0 x1 : Z) :
  height img1 = height img2 ->
  (forall x y, x0 <= x < x1 -> 0 <= y < height img1 ->
               getpixel img1 x y = getpixel img2 x y) ->
  ink_count luma img1 x0 x1 = ink_count luma img2 x0 x1.
Proof.
  intros Eh Hp. unfold ink_count, band_samples. rewrite <- Eh.
  do 2 f_equal. apply flat_map_ext_in. intros y Hy. apply range_In in Hy.
  apply map_ext_in. intros x Hx. apply in_map_iff in Hx.
  destruct Hx as (k & <- & Hk). apply range_In in Hk.
  apply Hp; lia.
Qed.

(** X10.  The columns to the right of the twentieth strip (there are
    [W mod 20] of them) have no part in the strip densities: two pages of
    the same size that agree on the first [20 * (W / 20)] columns get the
    same densities, whatever is printed in the remaining columns. *)
Theorem trailing_columns_ignored (luma : rgb -> Z) (img1 img2 : Image rgb) :
  width img1 = width img2 -> height img1 = height img2 ->
  20 <= width img1 -> 0 < height img1 ->
  (forall x y, 0 <= x < 20 * (width img1 / 20) -> 0 <= y < height img1 ->
               getpixel img1 x y = getpixel img2 x y) ->
  strip_densities_of img1 (binary_of luma img1) (width img1 / 20)
  = strip_densities_of img2 (binary_of luma img2) (width img2 / 20).
Proof.
  intros Ew Eh Hw Hh Hp.
  rewrite !strip_densities_ok by lia. rewrite <- Ew, <- Eh.
  f_equal. apply map_ext_in. intros i Hi. apply range_In in Hi.
  assert (Hsw : 0 < width img1 / 20) by (apply Z.div_str_pos; lia).
  f_equal. f_equal. f_equal.
  apply ink_count_ext; [exact Eh|].
  intros x y Hx Hy. apply Hp; [nia | exact Hy].
Qed.

Lemma trailing_columns_ignored_witness :
  strip_densities_of demo_page_plain (binary_of luma_601 demo_page_plain)
    (width demo_page_plain / 20)
  = strip_densities_of demo_page_corner (binary_of luma_601 demo_page_corner)
      (width demo_page_corner / 20).
Proof.
  apply (trailing_columns_ignored luma_601 demo_page_plain demo_page_corner).
  - reflexivity.
  - reflexivity.
  - simpl. lia.
  - simpl. lia.
  - intros x y Hx Hy.
    change (width demo_page_plain / 20) with 2 in Hx.
    unfold demo_page_plain, demo_page_corner. cbn [getpixel].
    replace (x =? 41) with false by lia. reflexivity.
Defined.

Lemma int_max0_nonneg (x : float) (z : Z) : int_max0 x = Ok z -> 0 <= z.
Proof.
  unfold int_max0, Py.int_of_float. rewrite ltb_spec.
  change (Prim2SF 0) with (S754_zero false).
  destruct (Prim2SF x) as [s|s| |s m e].
  - cbn. intros H. injection H as <-. lia.
  - destruct s; cbn; intros H; try discriminate H. injection H as <-. lia.
  - cbn. intros H. injection H as <-. lia.
  - unfold SFltb, SFcompare.
    destruct s; intros H; cbv beta zeta iota in H; injection H as <-; [lia|].
    apply Z.shiftl_nonneg. lia.
Qed.

(** X11.  The crop box never starts outside the page on the left or at
    the top: whenever the box is computed, its left and top coordinates
    are not negative. *)
Theorem crop_box_origin_in_page (img : Image rgb) (target_dpi : Z) (bbox : BBox)
  (label_long_edge label_short_edge : float) (left top right bottom : Z) :
  crop_box img target_dpi bbox label_long_edge label_short_edge
  = Ok (left, top, right, bottom) ->
  0 <= left /\ 0 <= top.
Proof.
  destruct bbox as [[[b0 b1] b2] b3]. unfold crop_box, Py.truediv.
  change (2 =? 0) with false. cbn [bind].
  match goal with |- bind ?c _ = _ -> _ => destruct c as [l|] eqn:El end;
    cbn [bind]; [|intros H; discriminate H].
  match goal with |- bind ?c _ = _ -> _ => destruct c as [r|] end;
    cbn [bind]; [|intros H; discriminate H].
  match goal with |- bind ?c _ = _ -> _ => destruct c as [t|] eqn:Et end;
    cbn [bind]; [|intros H; discriminate H].
  match goal with |- bind ?c _ = _ -> _ => destruct c as [b|] end;
    cbn [bind]; [|intros H; discriminate H].
  intros H. apply Ok_inj in H. injection H as <- <- <- <-.
  split; [exact (int_max0_nonneg _ _ El) | exact (int_max0_nonneg _ _ Et)].
Qed.

Lemma crop_box_origin_in_page_witness :
  crop_box blank_page 203 (0, 0, 1230, 820) 6 4 = Ok (6, 4, 1224, 816)
  /\ 0 <= 6 /\ 0 <= 4.
Proof.
  assert (Hbox : crop_box blank_page 203 (0, 0, 1230, 820) 6 4
                 = Ok (6, 4, 1224, 816)) by (vm_compute; reflexivity).
  split; [exact Hbox|].
  exact (crop_box_origin_in_page blank_page 203 (0, 0, 1230, 820) 6 4
           6 4 1224 816 Hbox).
Defined.

(** X12.  The label size and the "spans the page height" test depend on
    the width and height of the content box only, not on where the box
    lies on the page. *)
Theorem label_size_translation (img : Image rgb) (target_dpi : Z)
  (b0 b1 b2 b3 dx dy : Z) :
  label_size target_dpi (b0 + dx, b1 + dy, b2 + dx, b3 + dy)
  = label_size target_dpi (b0, b1, b2, b3)
  /\ spans_page_height_of img (b0 + dx, b1 + dy, b2 + dx, b3 + dy)
     = spans_page_height_of img (b0, b1, b2, b3).
Proof.
  unfold label_size, spans_page_height_of.
  replace (b2 + dx - (b0 + dx)) with (b2 - b0) by lia.
  replace (b3 + dy - (b1 + dy)) with (b3 - b1) by lia.
  split; reflexivity.
Qed.
